(** * package.js: a shallow embedding of the component installer

    The repository holds [lib/package.js] in two revisions.  The first drives
    an installation with node callbacks, an event emitter and [Batch]; the
    second is written with generators ([co]) and an [archan] channel.  A third
    file is a draft between the two: its constructor is that of the second
    revision, its [reallyInstall] that of the first.  The two revisions are
    embedded in the modules [Cb] and [Gen], over a common model of strings,
    paths, the disk, the HTTP client and the process-wide in-flight registry.

    Modelling decisions:
    - the state of the process is a [World]: the [inFlight] object, the disk
      and the sequence of effects; functions of the source become actions
      [M A] that pass it along and end by returning, throwing, crashing on an
      uncaught exception, or running out of fuel;
    - what lies outside the repository ([cogent], [url.parse], [JSON],
      [netrc], [rimraf] failures, the listeners of the creator) is a record
      [Env] of functions, and node's [path.resolve], [fs], [mkdirp] and
      [Batch] are written out;
    - asynchronous work is run under one schedule: every unit of work
      completes before the next one is started, in the order of the source;
    - a manifest is well-typed: its categories are lists of strings or
      absent, its dependencies map names to version strings;
    - the dependency tree is followed to the depth of a fuel argument. *)

From stdpp Require Import gmap strings list fin_maps pretty.
From Stdlib Require Import ZArith Ascii String.

Open Scope string_scope.
Open Scope Z_scope.

(** ** JavaScript strings *)

Module Js.

(** [s.indexOf(c)] for a one-character needle: the first position of [c], or
    [-1]. *)
Fixpoint indexOf (c : ascii) (s : string) : Z :=
  match s with
  | EmptyString => -1
  | String a s' =>
      if Ascii.eqb a c then 0
      else let r := indexOf c s' in if r =? -1 then -1 else r + 1
  end.

(** [!x] on a number and [~x] on a 32-bit integer, which is what [indexOf]
    returns. *)
Definition not_number (x : Z) : bool := x =? 0.
Definition bitnot (x : Z) : Z := Z.lnot x.

(** [!s] on a string: only the empty string is falsy. *)
Definition falsy (s : string) : bool :=
  match s with EmptyString => true | String _ _ => false end.

(** [s.split(c)] for a one-character separator. *)
Fixpoint split_aux (c : ascii) (s : string) (cur : string) : list string :=
  match s with
  | EmptyString => [cur]
  | String a s' =>
      if Ascii.eqb a c then cur :: split_aux c s' EmptyString
      else split_aux c s' (cur +:+ String a EmptyString)
  end.

Definition split (c : ascii) (s : string) : list string :=
  split_aux c s EmptyString.

(** [l.join(sep)]. *)
Fixpoint join (sep : string) (l : list string) : string :=
  match l with
  | [] => ""
  | [x] => x
  | x :: rest => x +:+ sep +:+ join sep rest
  end.

Definition lower_ascii (a : ascii) : ascii :=
  let n := nat_of_ascii a in
  if ((65 <=? n) && (n <=? 90))%nat then ascii_of_nat (n + 32) else a.

(** [s.toLowerCase()] on the ASCII range. *)
Fixpoint toLowerCase (s : string) : string :=
  match s with
  | EmptyString => EmptyString
  | String a s' => String (lower_ascii a) (toLowerCase s')
  end.

(** [s.slice(0, -1)]: everything but the last character. *)
Fixpoint slice_0_m1 (s : string) : string :=
  match s with
  | EmptyString => EmptyString
  | String a EmptyString => EmptyString
  | String a s' => String a (slice_0_m1 s')
  end.

(** [a || b] on strings. *)
Definition or_else (a : option string) (b : string) : string :=
  match a with
  | Some s => if falsy s then b else s
  | None => b
  end.

End Js.

(** ** Node's [path] module (POSIX flavour)

    [path.resolve] and [path.dirname] are not part of the repository; they
    are written out after node's documented algorithm so that the package
    directory can be computed.  [cwd] stands for [process.cwd()]. *)

Module Path.

Fixpoint normalize_rev (allowAbove : bool) (segs : list string) (acc : list string)
  : list string :=
  match segs with
  | [] => acc
  | seg :: rest =>
      if String.eqb seg "" || String.eqb seg "." then normalize_rev allowAbove rest acc
      else if String.eqb seg ".." then
        match acc with
        | top :: acc' =>
            if String.eqb top ".." then normalize_rev allowAbove rest (seg :: acc)
            else normalize_rev allowAbove rest acc'
        | [] =>
            if allowAbove then normalize_rev allowAbove rest [seg]
            else normalize_rev allowAbove rest []
        end
      else normalize_rev allowAbove rest (seg :: acc)
  end.

Definition normalizeString (p : string) (allowAbove : bool) : string :=
  Js.join "/" (rev (normalize_rev allowAbove (Js.split "/" p) [])).

Definition is_absolute (p : string) : bool :=
  match p with
  | String a _ => Ascii.eqb a "/"
  | EmptyString => false
  end.

(** The right-to-left scan of [path.resolve]: segments are prepended until an
    absolute one has been seen. *)
Fixpoint resolve_scan (args_rev : list string) (acc : string) : string * bool :=
  match args_rev with
  | [] => (acc, false)
  | p :: rest =>
      if Js.falsy p then resolve_scan rest acc
      else
        let acc' := p +:+ "/" +:+ acc in
        if is_absolute p then (acc', true) else resolve_scan rest acc'
  end.

Definition resolve (cwd : string) (args : list string) : string :=
  let '(p, abs) := resolve_scan (rev args ++ [cwd]) "" in
  let n := normalizeString p (negb abs) in
  if abs then "/" +:+ n
  else if Js.falsy n then "." else n.

(** [path.dirname] on a path produced by [resolve]. *)
Definition dirname (p : string) : string :=
  let segs := normalize_rev false (Js.split "/" p) [] in
  if is_absolute p then "/" +:+ Js.join "/" (rev (tail segs))
  else match tail segs with
       | [] => "."
       | t => Js.join "/" (rev t)
       end.

(** The chain of directories from the root down to [p]. *)
Fixpoint prefixes (segs : list string) (cur : string) : list string :=
  match segs with
  | [] => []
  | s :: rest =>
      let here := cur +:+ "/" +:+ s in
      here :: prefixes rest here
  end.

Definition ancestors (p : string) : list string :=
  prefixes (rev (normalize_rev false (Js.split "/" p) [])) "".

(** [p] lies inside the directory [d]. *)
Definition under (d p : string) : bool :=
  String.eqb d p || String.prefix (d +:+ "/") p.

End Path.

(** ** Data model *)

(** A JavaScript [Error] with the properties the installer reads or writes. *)
Record Error := mkError {
  message : string;
  status : option Z;
  syscall : option string;
  code : option string;
  fatal : option bool
}.

Definition new_Error (msg : string) : Error :=
  mkError msg None None None None.

Definition set_fatal (b : bool) (e : Error) : Error :=
  mkError (message e) (status e) (syscall e) (code e) (Some b).

Definition set_message (m : string) (e : Error) : Error :=
  mkError m (status e) (syscall e) (code e) (fatal e).

(** The parsed [component.json]: optional lists of relative paths, an
    optional dependency object (name to version, in key order) and an
    optional [repo]. *)
Record Manifest := mkManifest {
  scripts : option (list string);
  styles : option (list string);
  templates : option (list string);
  files : option (list string);
  images : option (list string);
  fonts : option (list string);
  json : option (list string);
  dependencies : option (list (string * string));
  repo : option string
}.

Definition empty_manifest : Manifest :=
  mkManifest None None None None None None None None None.

Definition set_repo (r : string) (m : Manifest) : Manifest :=
  mkManifest (scripts m) (styles m) (templates m) (files m) (images m)
             (fonts m) (json m) (dependencies m) (Some r).

Record Creds := mkCreds { user : string; pass : string }.

(** The options object handed to the HTTP client ([cogent]). *)
Record ReqOptions := mkReq {
  o_proxy : option string;
  o_netrc : option string;
  o_auth : option Creds;
  o_json : bool;
  o_authorization : option string;
  o_destination : option string
}.

(** What the HTTP client calls back with: a transport error, or a response
    with its status code, its body parsed as JSON and its raw text. *)
Inductive reply :=
| NetError (e : Error)
| Reply (statusCode : Z) (body : Manifest) (text : string).

(** The collaborators outside the repository. *)
Record Env := mkEnv {
  cwd : string;
  request : string -> ReqOptions -> reply;
  href : string -> string;
  hostname : string -> string;
  status_text : Z -> string;
  stringify : Manifest -> string;
  parse : string -> Manifest + string;
  base64 : string -> string;
  read_netrc : option string -> gmap string Creds;
  https_proxy : option string;
  rimraf_error : string -> option Error;
  dep_listens : bool
}.

Inductive node := Dir | File (content : string).

Inductive event :=
| NetGet (url : string) (opts : ReqOptions)
| FsExists (p : string)
| FsRead (p : string)
| FsMkdirp (p : string)
| FsWrite (p : string)
| FsRimraf (p : string)
| EmitError (slug : string) (e : Error)
| EmitEnd (slug : string)
| EmitExists (slug : string)
| EmitFile (slug : string) (file url : string)
| EmitDep (slug : string) (child : string).

(** Network requests, as opposed to file-system calls and notifications. *)
Definition is_net (ev : event) : bool :=
  match ev with NetGet _ _ => true | _ => false end.

(** The process: the module-level [inFlight] object, the disk, and the
    sequence of effects so far (oldest first). *)
Record World := mkWorld {
  inFlight : gmap string bool;
  fs : gmap string node;
  log : list event
}.

Definition in_flight (w : World) (slug : string) : bool :=
  match inFlight w !! slug with Some b => b | None => false end.

(** ** Effects: state, exceptions and fuel *)

(** [Throw] is a JavaScript exception that an enclosing [try] can catch;
    [Crash] is an exception thrown from inside a callback of the event loop,
    which nothing catches; [OutOfFuel] marks a dependency tree deeper than the
    fuel given. *)
Inductive outcome (A : Type) :=
| Return (a : A)
| Throw (e : Error)
| Crash (e : Error)
| OutOfFuel.

Arguments Return {A} a.
Arguments Throw {A} e.
Arguments Crash {A} e.
Arguments OutOfFuel {A}.

Definition M (A : Type) : Type := World -> outcome A * World.

Definition ret {A} (a : A) : M A := fun w => (Return a, w).

Definition bind {A B} (m : M A) (k : A -> M B) : M B :=
  fun w =>
    match m w with
    | (Return a, w') => k a w'
    | (Throw e, w') => (Throw e, w')
    | (Crash e, w') => (Crash e, w')
    | (OutOfFuel, w') => (OutOfFuel, w')
    end.

Definition throw {A} (e : Error) : M A := fun w => (Throw e, w).

Definition out_of_fuel {A} : M A := fun w => (OutOfFuel, w).

(** Run [m] and hand its result or its exception to a node-style callback. *)
Definition attempt {A} (m : M A) : M (Error + A) :=
  fun w =>
    match m w with
    | (Return a, w') => (Return (inr a), w')
    | (Throw e, w') => (Return (inl e), w')
    | (Crash e, w') => (Crash e, w')
    | (OutOfFuel, w') => (OutOfFuel, w')
    end.

(** The body of a callback run by the event loop: an exception that escapes
    it is uncaught. *)
Definition callback {A} (m : M A) : M A :=
  fun w =>
    match m w with
    | (Throw e, w') => (Crash e, w')
    | r => r
    end.

Definition emit_log (ev : event) : M unit :=
  fun w => (Return tt, mkWorld (inFlight w) (fs w) (log w ++ [ev])).

Definition get_world : M World := fun w => (Return w, w).

Definition set_fs (f : gmap string node) : M unit :=
  fun w => (Return tt, mkWorld (inFlight w) f (log w)).

Definition mark_in_flight (slug : string) : M unit :=
  fun w => (Return tt, mkWorld (<[slug := true]> (inFlight w)) (fs w) (log w)).

Declare Scope js_scope.
Delimit Scope js_scope with js.
Notation "x <- m ;; k" := (bind m (fun x => k))
  (at level 100, m at next level, right associativity) : js_scope.
Notation "m ;;; k" := (bind m (fun _ => k))
  (at level 100, right associativity) : js_scope.
Open Scope js_scope.

(** ** The disk and the HTTP client

    Each primitive completes before the next one starts, and reports the way
    a node callback does: with an error or with a value. *)

Definition fs_error (errno op p : string) : Error :=
  mkError (errno +:+ ", " +:+ op +:+ " '" +:+ p +:+ "'") None (Some op) (Some errno) None.

Definition is_dir (f : gmap string node) (d : string) : bool :=
  String.eqb d "/" || match f !! d with Some Dir => true | _ => false end.

Fixpoint mkdirs (chain : list string) (f : gmap string node)
  : Error + gmap string node :=
  match chain with
  | [] => inr f
  | d :: rest =>
      match f !! d with
      | Some (File _) => inl (fs_error "ENOTDIR" "mkdir" d)
      | _ => mkdirs rest (<[d := Dir]> f)
      end
  end.

Definition write_at (p content : string) (f : gmap string node)
  : Error + gmap string node :=
  if is_dir f (Path.dirname p) then
    match f !! p with
    | Some Dir => inl (fs_error "EISDIR" "open" p)
    | _ => inr (<[p := File content]> f)
    end
  else inl (fs_error "ENOENT" "open" p).

Definition remove_tree (d : string) (f : gmap string node) : gmap string node :=
  filter (fun kv => Path.under d (fst kv) = false) f.

Definition path_exists (f : gmap string node) (p : string) : bool :=
  match f !! p with Some _ => true | None => false end.

(** [fs.exists(path, fn)]. *)
Definition fs_exists (p : string) : M bool :=
  emit_log (FsExists p) ;;;
  w <- get_world ;;
  ret (path_exists (fs w) p).

(** [fs.readFile(path, 'utf8', fn)]. *)
Definition fs_readFile (p : string) : M (Error + string) :=
  emit_log (FsRead p) ;;;
  w <- get_world ;;
  ret (match fs w !! p with
       | Some (File c) => inr c
       | Some Dir => inl (fs_error "EISDIR" "read" p)
       | None => inl (fs_error "ENOENT" "open" p)
       end).

(** [mkdirp(dir, fn)]. *)
Definition mkdirp (p : string) : M (option Error) :=
  emit_log (FsMkdirp p) ;;;
  w <- get_world ;;
  match mkdirs (Path.ancestors p) (fs w) with
  | inl e => ret (Some e)
  | inr f => set_fs f ;;; ret None
  end.

(** [fs.writeFile(file, str, fn)]. *)
Definition fs_writeFile (p content : string) : M (option Error) :=
  emit_log (FsWrite p) ;;;
  w <- get_world ;;
  match write_at p content (fs w) with
  | inl e => ret (Some e)
  | inr f => set_fs f ;;; ret None
  end.

Record response := mkResponse { statusCode : Z; body : Manifest }.

Section Collaborators.

Variable env : Env.

(** [rimraf(dir, fn)]. *)
Definition rimraf (p : string) : M (option Error) :=
  emit_log (FsRimraf p) ;;;
  match rimraf_error env p with
  | Some e => ret (Some e)
  | None => w <- get_world ;; set_fs (remove_tree p (fs w)) ;;; ret None
  end.

(** [request(url, options, fn)]: the client streams a 200 response to
    [options.destination] when there is one. *)
Definition http_request (url : string) (opts : ReqOptions) : M (Error + response) :=
  emit_log (NetGet url opts) ;;;
  match request env url opts with
  | NetError e => ret (inl e)
  | Reply sc b text =>
      match o_destination opts with
      | Some dst =>
          if sc =? 200 then
            w <- get_world ;;
            match write_at dst text (fs w) with
            | inl e => ret (inl e)
            | inr f => set_fs f ;;; ret (inr (mkResponse sc b))
            end
          else ret (inr (mkResponse sc b))
      | None => ret (inr (mkResponse sc b))
      end
  end.

Definition dquote : string := String (ascii_of_nat 34) EmptyString.

(** [error(res, url)]. *)
Definition error (res : response) (url : string) : Error :=
  let name := status_text env (statusCode res) in
  mkError ("failed to fetch " +:+ url +:+ ", got " +:+ pretty (statusCode res)
           +:+ " " +:+ dquote +:+ name +:+ dquote)
          (Some (statusCode res)) None None None.

End Collaborators.

(** ** The transfer set

    Both revisions of [reallyInstall] build the list of files the same way. *)

Definition concat_if (files0 : list string) (field : option (list string))
  : list string :=
  match field with
  | Some l => files0 ++ l
  | None => files0
  end.

Definition collect_files (m : Manifest) : list string :=
  let files0 := [] in
  let files0 := concat_if files0 (scripts m) in
  let files0 := concat_if files0 (styles m) in
  let files0 := concat_if files0 (templates m) in
  let files0 := concat_if files0 (files m) in
  let files0 := concat_if files0 (images m) in
  let files0 := concat_if files0 (fonts m) in
  let files0 := concat_if files0 (json m) in
  files0.

(** ** Constructor options and [Batch] *)

Record Options := mkOptions {
  opt_dest : option string;
  opt_remotes : option (list string);
  opt_auth : option Creds;
  opt_netrc : option string;
  opt_force : bool;
  opt_proxy : option string;
  opt_concurrency : option nat
}.

Definition no_options : Options :=
  mkOptions None None None None false None None.

(** How a unit of work ends: its callback is called (with or without an
    error), or it never is. *)
Inductive settle := Pending | Done (err : option Error).

(** [batch.end(cb)] under the schedule in which work completes in the order
    it was pushed.  An exception thrown while a function is started is passed
    to its callback; the first error ends the batch, and only the functions
    already started by then (all of them without a concurrency limit, the
    next [n - 1] with a limit [n]) still run.  The result is what [cb]
    receives, [Pending] when [cb] is never called. *)
Fixpoint run_after_error (budget : option nat) (tasks : list (M settle)) : M unit :=
  match tasks with
  | [] => ret tt
  | t :: rest =>
      match budget with
      | Some O => ret tt
      | Some (S b) => _ <- attempt t ;; run_after_error (Some b) rest
      | None => _ <- attempt t ;; run_after_error None rest
      end
  end.

Fixpoint run_batch (limit : option nat) (tasks : list (M settle)) : M settle :=
  match tasks with
  | [] => ret (Done None)
  | t :: rest =>
      r <- attempt t ;;
      match r with
      | inl e => run_after_error (pred <$> limit) rest ;;; ret (Done (Some e))
      | inr (Done (Some e)) => run_after_error (pred <$> limit) rest ;;; ret (Done (Some e))
      | inr (Done None) => run_batch limit rest
      | inr Pending =>
          r' <- run_batch limit rest ;;
          ret (match r' with Done (Some e) => Done (Some e) | _ => Pending end)
      end
  end.

(** [if (this.concurrency) batch.concurrency(this.concurrency)]. *)
Definition batch_limit (c : option nat) : option nat :=
  match c with
  | Some O => None
  | other => other
  end.

(** ** First revision: callbacks, an event emitter and [Batch] *)

Module Cb.

Record Package := mkPackage {
  name : string;
  slug : string;
  dest : string;
  remotes : list string;
  auth : option Creds;
  netrc : option string;
  force : bool;
  proxy : option string;
  version : string;
  concurrency : option nat;
  (** [this.inFlight]: [install] has been replaced by [emit('end')] *)
  this_inFlight : bool;
  (** [this.remote.href] once a mirror has been parsed *)
  remote : option string;
  (** the creator has attached an ['error'] listener *)
  listens : bool
}.

Definition set_remote (r : option string) (p : Package) : Package :=
  mkPackage (name p) (slug p) (dest p) (remotes p) (auth p) (netrc p) (force p)
            (proxy p) (version p) (concurrency p) (this_inFlight p) r (listens p).

Definition set_listens (b : bool) (p : Package) : Package :=
  mkPackage (name p) (slug p) (dest p) (remotes p) (auth p) (netrc p) (force p)
            (proxy p) (version p) (concurrency p) (this_inFlight p) (remote p) b.

Section Installer.

Variable env : Env.

(** [new Package(pkg, version, options)]. *)
Definition new_Package (pkg version0 : string) (options : Options) : M Package :=
  let version := if String.eqb "*" version0 then "master" else version0 in
  if Js.falsy pkg then throw (new_Error "pkg required")
  else if Js.falsy version then throw (new_Error "version required")
  else
    let slug := pkg +:+ "@" +:+ version in
    w <- get_world ;;
    let this :=
      mkPackage pkg slug
        (Js.or_else (opt_dest options) "components")
        (match opt_remotes options with
         | Some l => l
         | None => ["https://raw.github.com"]
         end)
        (opt_auth options) (opt_netrc options) (opt_force options)
        (match opt_proxy options with
         | Some s => if Js.falsy s then https_proxy env else Some s
         | None => https_proxy env
         end)
        version (opt_concurrency options)
        (in_flight w slug) None false in
    mark_in_flight slug ;;;
    ret this.

(** [Package.prototype.dirname]. *)
Definition dirname (this : Package) : string :=
  Path.resolve (cwd env)
    [dest this; Js.join "-" (Js.split "/" (Js.toLowerCase (name this)))].

(** [Package.prototype.join]. *)
Definition join (this : Package) (path : string) : string :=
  Path.resolve (cwd env) [dirname this; path].

(** [Package.prototype.url]; [undefined + '/'] prints as [undefined/]. *)
Definition url (this : Package) (file : string) : string :=
  let remote0 :=
    match remote this with
    | Some h => h
    | None => match remotes this with r :: _ => r | [] => "undefined" end
    end in
  remote0 +:+ "/" +:+ name this +:+ "/" +:+ version this +:+ "/" +:+ file.

(** [Package.prototype.mkdir]: [this.dirs] is never filled, so the directory
    is always created. *)
Definition mkdir (this : Package) (dir : string) : M (option Error) :=
  let dirs : gmap string bool := ∅ in
  match dirs !! dir with
  | Some true => ret None
  | _ => mkdirp dir
  end.

(** [Package.prototype.destroy]. *)
Definition destroy (this : Package) : M (option Error) :=
  rimraf env (dirname this).

(** [Package.prototype.exists]. *)
Definition exists_ (this : Package) : M bool :=
  fs_exists (join this "component.json").

(** [Package.prototype.getJSON], with what it passes to [fn]. *)
Definition getJSON (this : Package) : M (Error + Manifest) :=
  let url := url this "component.json" in
  r <- http_request env url
         (mkReq (proxy this) (netrc this) (auth this) true None None) ;;
  match r with
  | inl err =>
      ret (inl (if bool_decide (syscall err = Some "getaddrinfo")
                then set_message "dns lookup failed" err else err))
  | inr res =>
      if negb (statusCode res =? 200) then ret (inl (error env res url))
      else ret (inr (body res))
  end.

(** One function pushed by [getFiles].  On a response other than 200 the
    callback calls [err], which is [null] there: a [TypeError] inside a
    callback. *)
Definition getFiles_task (this : Package) (file : string) : M settle :=
  let url := url this file in
  emit_log (EmitFile (slug this) file url) ;;;
  let dst := join this file in
  r <- http_request env url
         (mkReq (proxy this) (netrc this) (auth this) false None (Some dst)) ;;
  callback
    match r with
    | inl err => ret (Done (Some err))
    | inr res =>
        if negb (statusCode res =? 200)
        then throw (new_Error "TypeError: err is not a function")
        else ret (Done None)
    end.

(** [Package.prototype.getFiles]. *)
Definition getFiles (this : Package) (files : list string) : M settle :=
  run_batch (batch_limit (concurrency this)) (map (getFiles_task this) files).

(** [Package.prototype.writeFile]. *)
Definition writeFile (this : Package) (file str : string) : M (option Error) :=
  fs_writeFile (join this file) str.

(** [emit('error', err)] when only the creator may be listening: without a
    listener the emitter throws [err]. *)
Definition emit_error (this : Package) (err : Error) : M unit :=
  if listens this then emit_log (EmitError (slug this) err) else throw err.

Definition invalid_name (name : string) : bool :=
  Js.not_number (Js.bitnot (Js.indexOf "/" name)).

Variable install_dep : Package -> M bool.

(** One function pushed by [getDependencies]: [done] runs when the child
    emits ['end'] or ['exists']. *)
Definition getDependencies_task (this : Package) (dep : string * string) : M settle :=
  pkg <- new_Package (fst dep) (snd dep)
           (mkOptions (Some (dest this)) (Some (remotes this)) None None
                      (force this) (proxy this) None) ;;
  emit_log (EmitDep (slug this) (slug pkg)) ;;;
  ended <- install_dep (set_listens (dep_listens env) pkg) ;;
  ret (if ended : bool then Done None else Pending).

(** [Package.prototype.getDependencies]. *)
Definition getDependencies (this : Package) (deps : list (string * string)) : M settle :=
  run_batch None (map (getDependencies_task this) deps).

(** The end of the mirror list inside [next]. *)
Definition no_remote (this : Package) : M bool :=
  error0 <- destroy this ;;
  match error0 with
  | Some e => emit_error this e
  | None => ret tt
  end ;;;
  emit_error this (new_Error ("can't find remote for " +:+ dquote +:+ name this +:+ dquote)) ;;;
  ret false.

(** [next] inside [reallyInstall]: [rest] is [remotes.slice(i)].  The result
    tells whether ['end'] has been emitted. *)
Fixpoint next (this : Package) (rest : list string) (i : nat) : M bool :=
  match rest with
  | [] => no_remote (set_remote None this)
  | r :: rest' =>
      if Js.falsy r then no_remote (set_remote None this)
      else
        let i' := S i in
        let last := Nat.eqb i' (List.length (remotes this)) in
        let this := set_remote (Some (Js.slice_0_m1 (href env r))) this in
        j <- getJSON this ;;
        match j with
        | inl err =>
            let err := set_fatal (negb (bool_decide (status err = Some 404)) || last) err in
            (if listens this then emit_log (EmitError (slug this) err) else ret tt) ;;;
            next this rest' i'
        | inr json0 =>
            let files0 := collect_files json0 in
            let json1 :=
              set_repo (Js.or_else (repo json0)
                          (Js.slice_0_m1 (href env r) +:+ "/" +:+ name this)) json0 in
            b <- run_batch None
                   (match dependencies json1 with
                    | Some deps => [getDependencies this deps]
                    | None => []
                    end ++
                    [ (_ <- mkdir this (dirname this) ;;
                       e <- writeFile this "component.json" (stringify env json1) ;;
                       ret (Done e))
                    ; (_ <- mkdir this (dirname this) ;;
                       getFiles this files0) ]) ;;
            match b with
            | Pending => ret false
            | Done (Some err) =>
                let err := set_fatal last err in
                (if listens this then emit_log (EmitError (slug this) err) else ret tt) ;;;
                _ <- next this rest' i' ;;
                emit_log (EmitEnd (slug this)) ;;;
                ret true
            | Done None =>
                emit_log (EmitEnd (slug this)) ;;;
                ret true
            end
        end
  end.

(** [Package.prototype.reallyInstall]. *)
Definition reallyInstall (this : Package) : M bool :=
  next this (remotes this) 0.

(** [Package.prototype.install]; the constructor replaces it by
    [emit('end')] for a slug already in flight. *)
Definition install_with (this : Package) : M bool :=
  if this_inFlight this then emit_log (EmitEnd (slug this)) ;;; ret true
  else if invalid_name (name this) then
    emit_error this
      (new_Error ("invalid component name " +:+ dquote +:+ name this +:+ dquote)) ;;;
    ret false
  else
    callback
      (exists0 <- exists_ this ;;
       if exists0 && negb (force this) then
         emit_log (EmitExists (slug this)) ;;; ret true
       else reallyInstall this).

End Installer.

(** The dependency tree is followed to a depth of [fuel]. *)
Fixpoint install (env : Env) (fuel : nat) (this : Package) : M bool :=
  install_with env
    (match fuel with
     | O => fun _ => out_of_fuel
     | S n => install env n
     end) this.

End Cb.

(** ** Second revision: generators and an [archan] channel *)

Module Gen.

(** The channel shared by file transfers and dependency installs.  Under the
    schedule in which each unit of work completes before the next one is
    started, [drain] never has to wait; what remains of the channel is the
    list of errors its callbacks have received, the first of which [flush]
    throws. *)
Definition Channel := list Error.

Record Package := mkPackage {
  name : string;
  slug : string;
  dest : string;
  remotes : list string;
  auth : option Creds;
  netrc : gmap string Creds;
  force : bool;
  version : string;
  concurrency : option nat;
  channel : Channel;
  remote : option string;
  exists_ : bool
}.

Definition set_remote (r : option string) (p : Package) : Package :=
  mkPackage (name p) (slug p) (dest p) (remotes p) (auth p) (netrc p) (force p)
            (version p) (concurrency p) (channel p) r (exists_ p).

Definition set_channel (c : Channel) (p : Package) : Package :=
  mkPackage (name p) (slug p) (dest p) (remotes p) (auth p) (netrc p) (force p)
            (version p) (concurrency p) c (remote p) (exists_ p).

Definition set_exists (b : bool) (p : Package) : Package :=
  mkPackage (name p) (slug p) (dest p) (remotes p) (auth p) (netrc p) (force p)
            (version p) (concurrency p) (channel p) (remote p) b.

(** [yield thunk]: the error a thunk calls back with is thrown. *)
Definition yield_ (m : M (option Error)) : M unit :=
  r <- m ;;
  match r with
  | Some e => throw e
  | None => ret tt
  end.

(** [ch.push()] handed to a unit of work that is run to completion. *)
Definition push {A} (ch : Channel) (m : M A) : M Channel :=
  r <- attempt m ;;
  match r with
  | inl e => ret (ch ++ [e])%list
  | inr _ => ret ch
  end.

(** [yield* ch.drain()]. *)
Definition drain (ch : Channel) : M unit := ret tt.

(** [yield* ch.flush()]. *)
Definition flush (ch : Channel) : M unit :=
  match ch with
  | e :: _ => throw e
  | [] => ret tt
  end.

Section Installer.

Variable env : Env.

(** [new Package(pkg, version, options)]. *)
Definition new_Package (pkg version0 : string) (options : Options) : M Package :=
  let version := if String.eqb "*" version0 then "master" else version0 in
  if Js.falsy pkg then throw (new_Error "pkg required")
  else if Js.falsy version then throw (new_Error "version required")
  else
    ret (mkPackage pkg (pkg +:+ "@" +:+ version)
           (Js.or_else (opt_dest options) "components")
           (match opt_remotes options with
            | Some l => l
            | None => ["https://raw.github.com"]
            end)
           (opt_auth options) (read_netrc env (opt_netrc options))
           (opt_force options) version (opt_concurrency options)
           [] None false).

(** [Package.prototype.dirname]. *)
Definition dirname (this : Package) : string :=
  Path.resolve (cwd env) [dest this; Js.join "-" (Js.split "/" (name this))].

(** [Package.prototype.join]. *)
Definition join (this : Package) (path : string) : string :=
  Path.resolve (cwd env) [dirname this; path].

(** [Package.prototype.url]. *)
Definition url (this : Package) (file : string) : string :=
  let remote0 :=
    match remote this with
    | Some h => h
    | None => match remotes this with r :: _ => r | [] => "undefined" end
    end in
  remote0 +:+ "/" +:+ name this +:+ "/" +:+ version this +:+ "/" +:+ file.

(** [Package.prototype.mkdir]. *)
Definition mkdir (this : Package) (dir : string) : M unit :=
  let dirs : gmap string bool := ∅ in
  match dirs !! dir with
  | Some true => ret tt
  | _ => yield_ (mkdirp dir)
  end.

(** [Package.prototype.destroy]. *)
Definition destroy (this : Package) : M unit :=
  yield_ (rimraf env (dirname this)).

(** [Package.prototype.getLocalJSON]. *)
Definition getLocalJSON (this : Package) : M Manifest :=
  let path := join this "component.json" in
  r <- fs_readFile path ;;
  match r with
  | inl e => throw e
  | inr json0 =>
      match parse env json0 with
      | inl m => ret m
      | inr msg => throw (new_Error (msg +:+ " in " +:+ path))
      end
  end.

(** [encodeAuth(pkg, hostname)]. *)
Definition encodeAuth (pkg : Package) (hostname0 : string) : option string :=
  match (match auth pkg with Some a => Some a | None => netrc pkg !! hostname0 end) with
  | None => None
  | Some a => Some ("Basic " +:+ base64 env (user a +:+ ":" +:+ pass a))
  end.

(** [Package.prototype.getJSON]; [res.res] is the response itself. *)
Definition getJSON (this : Package) : M Manifest :=
  let url := url this "component.json" in
  let options := mkReq None None None true (encodeAuth this (hostname env url)) None in
  r <- http_request env url options ;;
  match r with
  | inl err =>
      throw (if bool_decide (syscall err = Some "getaddrinfo")
             then set_message "dns lookup failed" err
             else set_message (message err +:+ " in " +:+ url) err)
  | inr res =>
      if negb (statusCode res =? 400) then throw (error env res url)
      else ret (body res)
  end.

(** [Package.prototype.getFile]. *)
Definition getFile (this : Package) (file : string) : M unit :=
  let url := url this file in
  emit_log (EmitFile (slug this) file url) ;;;
  let dst := join this file in
  mkdir this (Path.dirname dst) ;;;
  r <- http_request env url (mkReq None None None false None (Some dst)) ;;
  match r with
  | inl err => throw err
  | inr res =>
      if negb (statusCode res =? 200) then throw (error env res url)
      else ret tt
  end.

(** [Package.prototype.getFiles]; the result is the channel afterwards. *)
Fixpoint getFiles (this : Package) (files : list string) (ch : Channel) : M Channel :=
  match files with
  | [] => ret ch
  | file :: rest =>
      drain ch ;;;
      ch' <- push ch (getFile this file) ;;
      getFiles this rest ch'
  end.

(** [Package.prototype.writeFile]. *)
Definition writeFile (this : Package) (file str : string) : M unit :=
  yield_ (fs_writeFile (join this file) str).

Definition invalid_name (name : string) : bool :=
  Js.not_number (Js.bitnot (Js.indexOf "/" name)).

Variable install_dep : Package -> M Package.

(** [Package.prototype.getDependencies]; the result is the channel
    afterwards. *)
Fixpoint getDependencies (this : Package) (deps : list (string * string)) (ch : Channel)
  : M Channel :=
  match deps with
  | [] => ret ch
  | (name0, version0) :: rest =>
      drain ch ;;;
      pkg <- new_Package name0 version0
               (mkOptions (Some (dest this)) (Some (remotes this)) None None
                          (force this) None None) ;;
      emit_log (EmitDep (slug this) (slug pkg)) ;;;
      ch' <- push ch (install_dep pkg) ;;
      getDependencies this rest ch'
  end.

(** After the [while] loop of [reallyInstall]. *)
Definition failed {A} (this : Package) : M A :=
  destroy this ;;;
  throw (new_Error ("can't find remote for " +:+ dquote +:+ name this +:+ dquote)).

(** The [while] loop of [reallyInstall]: [rest] is [remotes.slice(i)].  No
    path through the body leaves the loop with a value. *)
Fixpoint reallyInstall_loop (this : Package) (rest : list string) (i : nat) : M Package :=
  match rest with
  | [] => failed this
  | remote0 :: rest' =>
      if Js.falsy remote0 then failed this
      else
        let i' := S i in
        let last := Nat.eqb i' (List.length (remotes this)) in
        let this := set_remote (Some (Js.slice_0_m1 (href env remote0))) this in
        j <- attempt (getJSON this) ;;
        match j with
        | inl err => if last then throw err else reallyInstall_loop this rest' i'
        | inr json0 =>
            let files0 := collect_files json0 in
            let json1 :=
              set_repo (Js.or_else (repo json0)
                          (Js.slice_0_m1 (href env remote0) +:+ "/" +:+ name this)) json0 in
            ch1 <- match dependencies json1 with
                   | Some deps => getDependencies this deps (channel this)
                   | None => ret (channel this)
                   end ;;
            mkdir this (dirname this) ;;;
            writeFile this "component.json" (stringify env json1) ;;;
            ch2 <- getFiles this files0 ch1 ;;
            flush ch2 ;;;
            reallyInstall_loop (set_channel ch2 this) rest' i'
        end
  end.

(** [Package.prototype.reallyInstall]. *)
Definition reallyInstall (this : Package) : M Package :=
  reallyInstall_loop this (remotes this) 0.

(** [Package.prototype.install]; the result is [this] afterwards. *)
Definition install_with (this : Package) : M Package :=
  w <- get_world ;;
  if in_flight w (slug this) then ret this
  else
    let name0 := name this in
    mark_in_flight (slug this) ;;;
    if invalid_name name0 then
      throw (new_Error ("invalid component name " +:+ dquote +:+ name0 +:+ dquote))
    else
      local <- attempt (getLocalJSON this) ;;
      match local with
      | inl err =>
          if bool_decide (code err = Some "ENOENT") then reallyInstall this
          else throw err
      | inr _ =>
          if negb (force this) then ret (set_exists true this)
          else reallyInstall this
      end.

End Installer.

(** The dependency tree is followed to a depth of [fuel]. *)
Fixpoint install (env : Env) (fuel : nat) (this : Package) : M Package :=
  install_with env
    (match fuel with
     | O => fun _ => out_of_fuel
     | S n => install env n
     end) this.

(** [Package.prototype.end]: [cb] receives the error, if any. *)
Definition end_ (env : Env) (fuel : nat) (this : Package) : M (option Error) :=
  r <- attempt (install env fuel this) ;;
  ret (match r with inl e => Some e | inr _ => None end).

End Gen.

(** * Vocabulary of the statements *)

(** ** Scenarios used by the concrete statements *)

Module Scenario.

(** A mirror that is a bare origin: [url.parse] gives it a trailing slash. *)
Definition origin_href (s : string) : string := s +:+ "/".

Definition env_of (request0 : string -> ReqOptions -> reply) : Env :=
  mkEnv "/home/app" request0 origin_href (fun s => s) (fun _ => "status")
        (fun _ => "{}") (fun _ => inl empty_manifest) (fun s => s)
        (fun _ => ∅) None (fun _ => None) true.

Definition always (r : reply) : string -> ReqOptions -> reply := fun _ _ => r.

Definition tip_manifest : Manifest :=
  mkManifest (Some ["index.js"]) (Some ["a.css"]) None None None None None None None.

Definition m1 : string := "https://m1.example.com".
Definition m2 : string := "https://m2.example.com".

(** [m1] answers 404 to everything, every other host answers 200. *)
Definition m1_404_m2_200 (url : string) (_ : ReqOptions) : reply :=
  if String.prefix (m1 +:+ "/") url then Reply 404 empty_manifest "Not Found"
  else Reply 200 tip_manifest "content".

(** [m1] answers 500 to everything, every other host answers 200. *)
Definition m1_500_m2_200 (url : string) (_ : ReqOptions) : reply :=
  if String.prefix (m1 +:+ "/") url then Reply 500 empty_manifest "Internal Server Error"
  else Reply 200 tip_manifest "content".

Definition two_mirrors : Options :=
  mkOptions None (Some [m1; m2]) None None false None None.

Definition fresh : World := mkWorld ∅ ∅ [].

(** A disk on which the package directory of [component/tip] is already
    there, without a manifest in it. *)
Definition with_tip_dir : World :=
  mkWorld ∅
    (<["/home/app/components/component-tip" := Dir]>
       (<["/home/app/components" := Dir]>
          (<["/home/app" := Dir]> (<["/home" := Dir]> ∅))))
    [].

Definition tip_cb : Cb.Package :=
  Cb.mkPackage "component/tip" "component/tip@0.3.0" "components"
    ["https://raw.github.com"] None None false None "0.3.0" None false None true.

Definition tip_gen : Gen.Package :=
  Gen.mkPackage "component/tip" "component/tip@0.3.0" "components"
    ["https://raw.github.com"] None ∅ false "0.3.0" None [] None false.

End Scenario.

(** What a category of the manifest contributes to the transfer set. *)
Definition category (field : option (list string)) : list string :=
  match field with Some l => l | None => [] end.

(** The success range the specification asks for. *)
Definition success_status (sc : Z) : bool := (200 <=? sc) && (sc <=? 299).

(** The options [getJSON] of the first revision sends. *)
Definition manifest_request (this : Cb.Package) : ReqOptions :=
  mkReq (Cb.proxy this) (Cb.netrc this) (Cb.auth this) true None None.

(** Every slug in flight in [w] is still in flight in [w']. *)
Definition reg_le (w w' : World) : Prop :=
  forall s, in_flight w s = true -> in_flight w' s = true.

(** An action never clears an entry of the registry. *)
Definition keeps {A} (m : M A) : Prop := forall w, reg_le w (snd (m w)).

(** The slug the constructor computes. *)
Definition slug_of (pkg version0 : string) : string :=
  pkg +:+ "@" +:+ (if String.eqb "*" version0 then "master" else version0).

(** What a caller does to install a package with the first revision:
    construct it, attach its listeners, call [install]. *)
Definition cb_task (env : Env) (fuel : nat) (listening : bool)
    (pkg version0 : string) (o : Options) : M bool :=
  this <- Cb.new_Package env pkg version0 o ;;
  Cb.install env fuel (Cb.set_listens listening this).

(** The same with the second revision, as the repository's test does:
    construct the package and call [end]. *)
Definition gen_task (env : Env) (fuel : nat) (pkg version0 : string) (o : Options)
  : M (option Error) :=
  this <- Gen.new_Package env pkg version0 o ;;
  Gen.end_ env fuel this.

(** The name contains the namespace separator. *)
Definition has_separator (name : string) : Prop :=
  In "/"%char (list_ascii_of_string name).

Definition invalid_name_error (name : string) : Error :=
  new_Error ("invalid component name " +:+ dquote +:+ name +:+ dquote).

(** [err.fatal = 404 != err.status || last] of the first revision. *)
Definition mark_fatal (last : bool) (err : Error) : Error :=
  set_fatal (negb (bool_decide (status err = Some 404)) || last) err.

(** The package once the mirror [r] has been parsed and bound. *)
Definition bind_mirror_cb (env : Env) (r : string) (this : Cb.Package) : Cb.Package :=
  Cb.set_remote (Some (Js.slice_0_m1 (href env r))) this.

Definition bind_mirror_gen (env : Env) (r : string) (this : Gen.Package) : Gen.Package :=
  Gen.set_remote (Some (Js.slice_0_m1 (href env r))) this.

Definition logged (ev : event) (w : World) : World :=
  mkWorld (inFlight w) (fs w) (log w ++ [ev]).

Definition tip_dir : string := "/home/app/components/component-tip".

Definition error_404_m1 : Error :=
  mkError
    ("failed to fetch https://m1.example.com/component/tip/0.3.0/component.json, got 404 "
     +:+ dquote +:+ "status" +:+ dquote)
    (Some 404) None None (Some false).

Definition error_200_m2 : Error :=
  mkError
    ("failed to fetch https://m2.example.com/component/tip/0.3.0/component.json, got 200 "
     +:+ dquote +:+ "status" +:+ dquote)
    (Some 200) None None None.

Definition error_404_github : Error :=
  mkError
    ("failed to fetch https://raw.github.com/component/tip/0.3.0/component.json, got 404 "
     +:+ dquote +:+ "status" +:+ dquote)
    (Some 404) None None None.

Definition cant_find_remote : Error :=
  new_Error ("can't find remote for " +:+ dquote +:+ "component/tip" +:+ dquote).

Definition get_manifest (mirror : string) : event :=
  NetGet (mirror +:+ "/component/tip/0.3.0/component.json")
         (mkReq None None None true None None).

Definition get_file (mirror file : string) : event :=
  NetGet (mirror +:+ "/component/tip/0.3.0/" +:+ file)
         (mkReq None None None false None (Some (tip_dir +:+ "/" +:+ file))).

(** The manifest is answered with 400, the status the second revision
    accepts, and every file with 200. *)
Definition manifest_400_files_200 (_ : string) (o : ReqOptions) : reply :=
  if o_json o then Reply 400 Scenario.tip_manifest "{}"
  else Reply 200 Scenario.tip_manifest "content".

(** [m1] answers 404 to everything; the other hosts answer the manifest
    with 400 and every file with 200. *)
Definition m1_404_m2_accepted (url : string) (o : ReqOptions) : reply :=
  if String.prefix (Scenario.m1 +:+ "/") url then Reply 404 empty_manifest "Not Found"
  else manifest_400_files_200 url o.

(** An action that ends by throwing, crashing or running out of fuel. *)
Definition never_returns {A} (m : M A) : Prop :=
  forall w, match fst (m w) with Return _ => False | _ => True end.

(** The manifest request of the second revision for the mirror [r]. *)
Definition gen_manifest_url (env : Env) (this : Gen.Package) (r : string) : string :=
  Gen.url (bind_mirror_gen env r this) "component.json".

Definition gen_manifest_request (env : Env) (this : Gen.Package) (r : string) : ReqOptions :=
  mkReq None None None true
        (Gen.encodeAuth env this (hostname env (gen_manifest_url env this r))) None.

(** The mirror [r] does not serve the manifest in the eyes of the second
    revision: the request fails, or its status is not the one [getJSON]
    compares with. *)
Definition gen_rejects (env : Env) (this : Gen.Package) (r : string) : Prop :=
  match request env (gen_manifest_url env this r) (gen_manifest_request env this r) with
  | NetError _ => True
  | Reply sc _ _ => sc <> 400
  end.

(** [url.parse(s).href] for a mirror with a path: the string itself, no
    slash being added. *)
Definition path_mirror_env : Env :=
  mkEnv "/home/app" (Scenario.always (Reply 200 Scenario.tip_manifest "content"))
        (fun s => s) (fun s => s) (fun _ => "status")
        (fun _ => "{}") (fun _ => inl empty_manifest) (fun s => s)
        (fun _ => ∅) None (fun _ => None) true.

(** [s] with every slash replaced by a hyphen. *)
Fixpoint hyphenate (s : string) : string :=
  match s with
  | EmptyString => EmptyString
  | String a s' => String (if Ascii.eqb a "/" then "-"%char else a) (hyphenate s')
  end.

(** A path segment that [path.resolve] keeps as it is: not empty, not [.]
    or [..], without a slash. *)
Definition plain_segment (seg : string) : Prop :=
  ~ In "/"%char (list_ascii_of_string seg)
  /\ seg <> EmptyString /\ seg <> "." /\ seg <> "..".

(** [path.resolve(p, s)] for a resolved [p] and a plain segment [s]. *)
Definition child (p seg : string) : string :=
  if String.eqb p "/" then "/" +:+ seg else p +:+ "/" +:+ seg.

Definition no_slash (s : string) : Prop := ~ In "/"%char (list_ascii_of_string s).

(** A disk on which [component/tip] is installed. *)
Definition installed_tip : World :=
  mkWorld ∅
    (<[tip_dir +:+ "/component.json" := File "{}"]> (fs Scenario.with_tip_dir))
    [].

(** An environment in which no text parses as JSON. *)
Definition unparsable_env : Env :=
  mkEnv "/home/app" (Scenario.always (Reply 200 Scenario.tip_manifest "content"))
        Scenario.origin_href (fun s => s) (fun _ => "status")
        (fun _ => "{}") (fun _ => inr "Unexpected end of input") (fun s => s)
        (fun _ => ∅) None (fun _ => None) true.

Definition forced_tip_gen : Gen.Package :=
  Gen.mkPackage "component/tip" "component/tip@0.3.0" "components"
    ["https://raw.github.com"] None ∅ true "0.3.0" None [] None false.

(** The manifest request of the first and of the second revision. *)
Definition cb_manifest_url (this : Cb.Package) : string := Cb.url this "component.json".

Definition gen_own_manifest_url (env : Env) (this : Gen.Package) : string :=
  Gen.url this "component.json".

Definition gen_own_manifest_request (env : Env) (this : Gen.Package) : ReqOptions :=
  mkReq None None None true
        (Gen.encodeAuth env this (hostname env (Gen.url this "component.json"))) None.

Definition dns_failure : Error :=
  mkError "getaddrinfo ENOTFOUND" None (Some "getaddrinfo") (Some "ENOTFOUND") None.

Definition refused : Error :=
  mkError "connect ECONNREFUSED" None (Some "connect") (Some "ECONNREFUSED") None.


(** A dependency entry with a name and a version, whose slug is in
    flight. *)
Definition dep_in_flight (w : World) (d : string * string) : Prop :=
  fst d <> EmptyString /\ snd d <> EmptyString
  /\ in_flight w (slug_of (fst d) (snd d)) = true.

(** A process in which [component/emitter@1.0.0] and
    [component/domify@master] are in flight. *)
Definition two_in_flight : World :=
  mkWorld (<["component/emitter@1.0.0" := true]> (<["component/domify@master" := true]> ∅))
          ∅ [].

Definition two_deps : list (string * string) :=
  [("component/emitter", "1.0.0"); ("component/domify", "*")].

(** What [getJSON] of the second revision throws for the mirror [r], as a
    function of the client's answer. *)
Definition gen_thrown (env : Env) (this : Gen.Package) (r : string) : Error :=
  match request env (gen_manifest_url env this r) (gen_manifest_request env this r) with
  | NetError e =>
      if bool_decide (syscall e = Some "getaddrinfo")
      then set_message "dns lookup failed" e
      else set_message (message e +:+ " in " +:+ gen_manifest_url env this r) e
  | Reply sc b _ => error env (mkResponse sc b) (gen_manifest_url env this r)
  end.

Definition three_mirrors_gen : Gen.Package :=
  Gen.mkPackage "component/tip" "component/tip@0.3.0" "components"
    [Scenario.m1; Scenario.m2; "https://m3.example.com"] None ∅ false "0.3.0" None [] None
    false.

Definition cb_mirror_url (env : Env) (this : Cb.Package) (r : string) : string :=
  Cb.url (bind_mirror_cb env r this) "component.json".

(** What [getJSON] of the first revision calls back with for the mirror [r],
    as a function of the client's answer. *)
Definition cb_received (env : Env) (this : Cb.Package) (r : string) : Error + Manifest :=
  match request env (cb_mirror_url env this r) (manifest_request this) with
  | NetError e =>
      inl (if bool_decide (syscall e = Some "getaddrinfo")
           then set_message "dns lookup failed" e else e)
  | Reply sc b _ =>
      if negb (sc =? 200) then inl (error env (mkResponse sc b) (cb_mirror_url env this r))
      else inr b
  end.

(** The requests and the ['error'] events of a pass over mirrors that all
    fail, [i] mirrors having been tried before. *)
Fixpoint cb_failed_trace (env : Env) (this : Cb.Package) (rest : list string) (i : nat)
  : list event :=
  match rest with
  | [] => []
  | r :: rest' =>
      NetGet (cb_mirror_url env this r) (manifest_request this)
      :: match cb_received env this r with
         | inl e =>
             [EmitError (Cb.slug this)
                (mark_fatal (Nat.eqb (S i) (List.length (Cb.remotes this))) e)]
         | inr _ => []
         end ++ cb_failed_trace env this rest' (S i)
  end.

Definition two_mirrors_cb : Cb.Package :=
  Cb.mkPackage "component/tip" "component/tip@0.3.0" "components"
    [Scenario.m1; Scenario.m2] None None false None "0.3.0" None false None true.

(** A process in which [component/tip@0.3.0] is in flight, installing
    [component/emitter@1.0.0] from a mirror that does not answer. *)
Definition tip_in_flight : World :=
  mkWorld (<["component/tip@0.3.0" := true]> ∅) ∅ [].

Definition emitter_gen : Gen.Package :=
  Gen.mkPackage "component/emitter" "component/emitter@1.0.0" "components"
    [Scenario.m1] None ∅ false "1.0.0" None [] None false.

(** A dependency entry with a name and a version. *)
Definition dep_named (d : string * string) : Prop :=
  fst d <> EmptyString /\ snd d <> EmptyString.

(** An environment in which no host answers. *)
Definition unreachable : Env :=
  Scenario.env_of (Scenario.always (NetError (new_Error "down"))).

Definition first_pass : outcome Gen.Channel * World :=
  Gen.getDependencies unreachable (Gen.install unreachable 1) Scenario.tip_gen two_deps []
    Scenario.fresh.







(** * Properties *)

(** ** Paths *)

Example resolve_relative :
  Path.resolve "/home/app" ["components"; "component-tip"]
  = "/home/app/components/component-tip".
Proof. reflexivity. Qed.

Example resolve_dotdot :
  Path.resolve "/home/app" ["components/../x"; "./lib"] = "/home/app/x/lib".
Proof. reflexivity. Qed.

Example resolve_absolute :
  Path.resolve "/home/app" ["/srv/components"; "a-b"] = "/srv/components/a-b".
Proof. reflexivity. Qed.

Example dirname_file :
  Path.dirname "/home/app/components/a-b/lib/index.js"
  = "/home/app/components/a-b/lib".
Proof. reflexivity. Qed.

(** ** The transfer set *)

Lemma concat_if_category (acc : list string) (field : option (list string)) :
  concat_if acc field = (acc ++ category field)%list.
Proof. destruct field; simpl; [reflexivity | by rewrite app_nil_r]. Qed.

(** C7. The list of files that [reallyInstall] hands to [getFiles] is the
    concatenation of the manifest's categories in the order scripts, styles,
    templates, files, images, fonts, json; a category that is absent
    contributes nothing.  For the manifest with scripts [index.js] and styles
    [a.css] it is [index.js; a.css]. *)
Theorem collect_files_is_concatenation :
  (forall m : Manifest,
      collect_files m
      = (category (scripts m) ++ category (styles m) ++ category (templates m)
         ++ category (files m) ++ category (images m) ++ category (fonts m)
         ++ category (json m))%list)
  /\ collect_files Scenario.tip_manifest = ["index.js"; "a.css"].
Proof.
  split; [| reflexivity].
  intros m. unfold collect_files.
  rewrite !concat_if_category. simpl. by rewrite <- !app_assoc.
Qed.

(** ** Identity: slug, directory and URLs *)

Lemma resolve_components_tip (cwd0 : string) :
  Path.resolve cwd0 ["components"; "component-tip"]
  = Path.resolve cwd0 ["components/component-tip"].
Proof. reflexivity. Qed.

(** C8. A URL is the concatenation of the bound mirror, the package name, the
    version and the file, separated by slashes, in both revisions.  The
    package [component/tip] at version [0.3.0], constructed with no options,
    has the slug [component/tip@0.3.0], fetches its manifest from
    [https://raw.github.com/component/tip/0.3.0/component.json] and lives in
    [components/component-tip] under the working directory. *)
Theorem url_is_plain_concatenation :
  (forall (this : Cb.Package) (mirror file : string),
      Cb.url (Cb.set_remote (Some mirror) this) file
      = mirror +:+ "/" +:+ Cb.name this +:+ "/" +:+ Cb.version this +:+ "/" +:+ file)
  /\ (forall (this : Gen.Package) (mirror file : string),
      Gen.url (Gen.set_remote (Some mirror) this) file
      = mirror +:+ "/" +:+ Gen.name this +:+ "/" +:+ Gen.version this +:+ "/" +:+ file)
  /\ (forall (env : Env) (w : World),
      exists this w',
        Cb.new_Package env "component/tip" "0.3.0" no_options w = (Return this, w')
        /\ Cb.slug this = "component/tip@0.3.0"
        /\ Cb.url this "component.json"
           = "https://raw.github.com/component/tip/0.3.0/component.json"
        /\ Cb.dirname env this
           = Path.resolve (cwd env) ["components/component-tip"])
  /\ (forall (env : Env) (w : World),
      exists this,
        Gen.new_Package env "component/tip" "0.3.0" no_options w = (Return this, w)
        /\ Gen.slug this = "component/tip@0.3.0"
        /\ Gen.url this "component.json"
           = "https://raw.github.com/component/tip/0.3.0/component.json"
        /\ Gen.dirname env this
           = Path.resolve (cwd env) ["components/component-tip"])
  /\ Path.resolve "/home/app" ["components/component-tip"]
     = "/home/app/components/component-tip".
Proof.
  split_and!; try reflexivity.
  - intros env w. eexists _, _. split; [cbv; reflexivity |]. split_and!; reflexivity.
  - intros env w. eexists. split; [cbv; reflexivity |]. split_and!; reflexivity.
Qed.

(** ** The constructor *)

(** C10. In both revisions the constructor throws [pkg required] for an
    empty name and [version required] for an empty version, leaving the
    process as it was: nothing is read, written or fetched and the in-flight
    registry is untouched.  For a name and a version that are not empty it
    returns a package, without any request or file-system call. *)
Theorem constructor_validates_before_effects :
  (forall env version0 options w,
      Cb.new_Package env "" version0 options w = (Throw (new_Error "pkg required"), w))
  /\ (forall env c pkg options w,
      Cb.new_Package env (String c pkg) "" options w
      = (Throw (new_Error "version required"), w))
  /\ (forall env c pkg c' version0 options w,
      exists this w',
        Cb.new_Package env (String c pkg) (String c' version0) options w = (Return this, w')
        /\ log w' = log w /\ fs w' = fs w)
  /\ (forall env version0 options w,
      Gen.new_Package env "" version0 options w = (Throw (new_Error "pkg required"), w))
  /\ (forall env c pkg options w,
      Gen.new_Package env (String c pkg) "" options w
      = (Throw (new_Error "version required"), w))
  /\ (forall env c pkg c' version0 options w,
      exists this,
        Gen.new_Package env (String c pkg) (String c' version0) options w = (Return this, w)).
Proof.
  split_and!; intros.
  - reflexivity.
  - unfold Cb.new_Package. simpl. reflexivity.
  - unfold Cb.new_Package.
    destruct (String.eqb "*" (String c' version0));
      eexists _, _; (split; [cbv [bind get_world mark_in_flight ret Js.falsy]; reflexivity |]);
      split; reflexivity.
  - reflexivity.
  - unfold Gen.new_Package. simpl. reflexivity.
  - unfold Gen.new_Package.
    destruct (String.eqb "*" (String c' version0)); eexists; reflexivity.
Qed.

(** ** Fetching the manifest *)

(** C4, as stated, fails: a 204 response lies in 200-299, yet [getJSON] of
    the first revision calls back with an error carrying the status 204. *)
Lemma getJSON_rejects_204 :
  success_status 204 = true
  /\ fst (Cb.getJSON
            (Scenario.env_of (Scenario.always (Reply 204 Scenario.tip_manifest "")))
            Scenario.tip_cb Scenario.fresh)
     = Return (inl (mkError
         ("failed to fetch https://raw.github.com/component/tip/0.3.0/component.json, got 204 "
          +:+ dquote +:+ "status" +:+ dquote)
         (Some 204) None None None)).
Proof. split; reflexivity. Qed.

(** C4, amended. In the first revision the manifest fetch succeeds, with the
    parsed body, exactly when the status code is 200; for every other status
    code the callback receives an error whose [status] is that code and
    whose message names the URL. *)
Theorem getJSON_succeeds_exactly_on_200
    (env : Env) (this : Cb.Package) (w : World) (sc : Z) (b : Manifest) (text : string) :
  request env (Cb.url this "component.json") (manifest_request this) = Reply sc b text ->
  (sc = 200 -> fst (Cb.getJSON env this w) = Return (inr b))
  /\ (sc <> 200 ->
      fst (Cb.getJSON env this w)
      = Return (inl (mkError
          ("failed to fetch " +:+ Cb.url this "component.json" +:+ ", got " +:+ pretty sc
           +:+ " " +:+ dquote +:+ status_text env sc +:+ dquote)
          (Some sc) None None None)))
  /\ (fst (Cb.getJSON env this w) = Return (inr b) -> sc = 200).
Proof.
  intros Hreq.
  assert (Hrun : fst (Cb.getJSON env this w)
                 = if negb (sc =? 200)
                   then Return (inl (error env (mkResponse sc b) (Cb.url this "component.json")))
                   else Return (inr b)).
  { unfold Cb.getJSON, http_request, bind, emit_log. simpl.
    unfold manifest_request in Hreq. rewrite Hreq. simpl.
    unfold ret. by destruct (sc =? 200). }
  split_and!.
  - intros ->. by rewrite Hrun.
  - intros Hne. rewrite Hrun.
    destruct (Z.eqb_spec sc 200) as [-> | _]; [done | reflexivity].
  - rewrite Hrun. destruct (Z.eqb_spec sc 200) as [-> | _]; [done | discriminate].
Qed.

Lemma getJSON_succeeds_exactly_on_200_witness :
  fst (Cb.getJSON
         (Scenario.env_of (Scenario.always (Reply 200 Scenario.tip_manifest "content")))
         Scenario.tip_cb Scenario.fresh)
  = Return (inr Scenario.tip_manifest).
Proof.
  exact (proj1 (getJSON_succeeds_exactly_on_200
                  (Scenario.env_of (Scenario.always (Reply 200 Scenario.tip_manifest "content")))
                  Scenario.tip_cb Scenario.fresh 200 Scenario.tip_manifest "content"
                  eq_refl) eq_refl).
Defined.

(** The second revision compares the status with 400 instead: a 200
    response is thrown as an error, a 400 response is returned as the
    manifest. *)
Lemma gen_getJSON_compares_with_400 :
  fst (Gen.getJSON
         (Scenario.env_of (Scenario.always (Reply 200 Scenario.tip_manifest "content")))
         Scenario.tip_gen Scenario.fresh)
  = Throw (mkError
      ("failed to fetch https://raw.github.com/component/tip/0.3.0/component.json, got 200 "
       +:+ dquote +:+ "status" +:+ dquote)
      (Some 200) None None None)
  /\ fst (Gen.getJSON
            (Scenario.env_of (Scenario.always (Reply 400 Scenario.tip_manifest "content")))
            Scenario.tip_gen Scenario.fresh)
     = Return Scenario.tip_manifest.
Proof. split; reflexivity. Qed.

(** ** The in-flight registry only grows *)

Lemma reg_le_refl (w : World) : reg_le w w.
Proof. intros s Hs. exact Hs. Qed.

Lemma reg_le_trans (w1 w2 w3 : World) : reg_le w1 w2 -> reg_le w2 w3 -> reg_le w1 w3.
Proof. intros H12 H23 s Hs. apply H23, H12, Hs. Qed.

Lemma in_flight_mark (w : World) (slug s : string) :
  in_flight (snd (mark_in_flight slug w)) s
  = if bool_decide (slug = s) then true else in_flight w s.
Proof.
  unfold in_flight, mark_in_flight. simpl.
  rewrite lookup_insert. case_bool_decide; case_decide; done.
Qed.

Lemma keeps_ret {A} (a : A) : keeps (ret a).
Proof. intros w. apply reg_le_refl. Qed.

Lemma keeps_throw {A} (e : Error) : keeps (@throw A e).
Proof. intros w. apply reg_le_refl. Qed.

Lemma keeps_out_of_fuel {A} : keeps (@out_of_fuel A).
Proof. intros w. apply reg_le_refl. Qed.

Lemma keeps_get_world : keeps get_world.
Proof. intros w. apply reg_le_refl. Qed.

Lemma keeps_emit_log (ev : event) : keeps (emit_log ev).
Proof. intros w s Hs. exact Hs. Qed.

Lemma keeps_set_fs (f : gmap string node) : keeps (set_fs f).
Proof. intros w s Hs. exact Hs. Qed.

Lemma keeps_mark_in_flight (slug : string) : keeps (mark_in_flight slug).
Proof.
  intros w s Hs. rewrite in_flight_mark. by case_bool_decide.
Qed.

Lemma keeps_bind {A B} (m : M A) (k : A -> M B) :
  keeps m -> (forall a, keeps (k a)) -> keeps (bind m k).
Proof.
  intros Hm Hk w. unfold bind. specialize (Hm w).
  destruct (m w) as [[a | e | e |] w']; simpl in *; try exact Hm.
  eapply reg_le_trans; [exact Hm | apply Hk].
Qed.

Lemma keeps_attempt {A} (m : M A) : keeps m -> keeps (attempt m).
Proof.
  intros Hm w. unfold attempt. specialize (Hm w).
  by destruct (m w) as [[a | e | e |] w'].
Qed.

Lemma keeps_callback {A} (m : M A) : keeps m -> keeps (callback m).
Proof.
  intros Hm w. unfold callback. specialize (Hm w).
  by destruct (m w) as [[a | e | e |] w'].
Qed.

Create HintDb keeps.

#[local] Hint Resolve keeps_ret keeps_throw keeps_out_of_fuel keeps_get_world
  keeps_emit_log keeps_set_fs keeps_mark_in_flight : keeps.

Ltac keeps_step :=
  lazymatch goal with
  | |- keeps (bind _ _) => apply keeps_bind; [| intros ?]
  | |- keeps (attempt _) => apply keeps_attempt
  | |- keeps (callback _) => apply keeps_callback
  | |- keeps (if ?b then _ else _) => destruct b
  | |- keeps (match ?x with _ => _ end) => destruct x
  | |- keeps _ => solve [eauto with keeps]
  end.

Ltac keeps_tac := repeat keeps_step.

Lemma keeps_fs_exists (p : string) : keeps (fs_exists p).
Proof. unfold fs_exists. keeps_tac. Qed.

Lemma keeps_fs_readFile (p : string) : keeps (fs_readFile p).
Proof. unfold fs_readFile. keeps_tac. Qed.

Lemma keeps_mkdirp (p : string) : keeps (mkdirp p).
Proof. unfold mkdirp. keeps_tac. Qed.

Lemma keeps_fs_writeFile (p c : string) : keeps (fs_writeFile p c).
Proof. unfold fs_writeFile. keeps_tac. Qed.

Lemma keeps_rimraf (env : Env) (p : string) : keeps (rimraf env p).
Proof. unfold rimraf. keeps_tac. Qed.

Lemma keeps_http_request (env : Env) (url : string) (o : ReqOptions) :
  keeps (http_request env url o).
Proof. unfold http_request. keeps_tac. Qed.

#[local] Hint Resolve keeps_fs_exists keeps_fs_readFile keeps_mkdirp keeps_fs_writeFile
  keeps_rimraf keeps_http_request : keeps.

Lemma keeps_run_after_error (budget : option nat) (tasks : list (M settle)) :
  Forall keeps tasks -> keeps (run_after_error budget tasks).
Proof.
  intros Ht. revert budget.
  induction Ht as [| t rest Hkt _ IH]; intros budget; simpl; [keeps_tac |].
  destruct budget as [[| b] |]; keeps_tac; apply IH.
Qed.

Lemma keeps_run_batch (limit : option nat) (tasks : list (M settle)) :
  Forall keeps tasks -> keeps (run_batch limit tasks).
Proof.
  intros Ht.
  induction Ht as [| t rest Hkt Hrest IH]; simpl; [keeps_tac |].
  apply keeps_bind; [by apply keeps_attempt |].
  intros [e | [| [e |]]]; keeps_tac;
    try (apply keeps_run_after_error; assumption); exact IH.
Qed.

Section CbKeeps.

Variable env : Env.
Variable install_dep : Cb.Package -> M bool.
Hypothesis keeps_install_dep : forall p, keeps (install_dep p).

Lemma keeps_cb_new_Package (pkg version0 : string) (o : Options) :
  keeps (Cb.new_Package env pkg version0 o).
Proof. unfold Cb.new_Package. cbv zeta. keeps_tac. Qed.

Lemma keeps_cb_getJSON (this : Cb.Package) : keeps (Cb.getJSON env this).
Proof. unfold Cb.getJSON. cbv zeta. keeps_tac. Qed.

Lemma keeps_cb_mkdir (this : Cb.Package) (dir : string) : keeps (Cb.mkdir this dir).
Proof. unfold Cb.mkdir. cbv zeta. keeps_tac. Qed.

Lemma keeps_cb_getFiles (this : Cb.Package) (l : list string) :
  keeps (Cb.getFiles env this l).
Proof.
  unfold Cb.getFiles. apply keeps_run_batch, Forall_map, Forall_forall.
  intros file _. unfold Cb.getFiles_task. cbv zeta. keeps_tac.
Qed.

Lemma keeps_cb_emit_error (this : Cb.Package) (e : Error) :
  keeps (Cb.emit_error this e).
Proof. unfold Cb.emit_error. keeps_tac. Qed.

#[local] Hint Resolve keeps_cb_new_Package keeps_cb_getJSON keeps_cb_mkdir keeps_cb_getFiles
  keeps_cb_emit_error : keeps.

Lemma keeps_cb_getDependencies (this : Cb.Package) (deps : list (string * string)) :
  keeps (Cb.getDependencies env install_dep this deps).
Proof.
  unfold Cb.getDependencies. apply keeps_run_batch, Forall_map, Forall_forall.
  intros dep _. unfold Cb.getDependencies_task. keeps_tac.
Qed.

Lemma keeps_cb_no_remote (this : Cb.Package) : keeps (Cb.no_remote env this).
Proof. unfold Cb.no_remote, Cb.destroy. keeps_tac. Qed.

#[local] Hint Resolve keeps_cb_getDependencies keeps_cb_no_remote : keeps.

Lemma keeps_cb_next (rest : list string) :
  forall (this : Cb.Package) (i : nat), keeps (Cb.next env install_dep this rest i).
Proof.
  induction rest as [| r rest IH]; intros this i; simpl; [keeps_tac |].
  destruct (Js.falsy r); [keeps_tac |].
  apply keeps_bind; [keeps_tac |].
  intros [err | json0]; [keeps_tac |].
  apply keeps_bind; [| intros [| [e |]]; keeps_tac].
  apply keeps_run_batch, Forall_app; split.
  - destruct (dependencies _); repeat constructor. keeps_tac.
  - unfold Cb.writeFile. repeat constructor; keeps_tac.
Qed.

#[local] Hint Resolve keeps_cb_next : keeps.

Lemma keeps_cb_install_with (this : Cb.Package) :
  keeps (Cb.install_with env install_dep this).
Proof. unfold Cb.install_with, Cb.exists_, Cb.reallyInstall. keeps_tac. Qed.

End CbKeeps.

Lemma keeps_cb_install (env : Env) (fuel : nat) :
  forall this, keeps (Cb.install env fuel this).
Proof.
  induction fuel as [| n IH]; intros this; simpl;
    apply keeps_cb_install_with; [intros p; apply keeps_out_of_fuel | exact IH].
Qed.

Section GenKeeps.

Variable env : Env.
Variable install_dep : Gen.Package -> M Gen.Package.
Hypothesis keeps_install_dep : forall p, keeps (install_dep p).

Lemma keeps_gen_new_Package (pkg version0 : string) (o : Options) :
  keeps (Gen.new_Package env pkg version0 o).
Proof. unfold Gen.new_Package. cbv zeta. keeps_tac. Qed.

Lemma keeps_yield (m : M (option Error)) : keeps m -> keeps (Gen.yield_ m).
Proof. intros Hm. unfold Gen.yield_. keeps_tac. Qed.

Lemma keeps_push {A} (ch : Gen.Channel) (m : M A) : keeps m -> keeps (Gen.push ch m).
Proof. intros Hm. unfold Gen.push. keeps_tac. Qed.

#[local] Hint Resolve keeps_gen_new_Package keeps_yield keeps_push : keeps.

Lemma keeps_gen_mkdir (this : Gen.Package) (dir : string) : keeps (Gen.mkdir this dir).
Proof. unfold Gen.mkdir. cbv zeta. keeps_tac. Qed.

Lemma keeps_gen_getJSON (this : Gen.Package) : keeps (Gen.getJSON env this).
Proof. unfold Gen.getJSON. cbv zeta. keeps_tac. Qed.

Lemma keeps_gen_getLocalJSON (this : Gen.Package) : keeps (Gen.getLocalJSON env this).
Proof. unfold Gen.getLocalJSON. cbv zeta. keeps_tac. Qed.

#[local] Hint Resolve keeps_gen_mkdir keeps_gen_getJSON keeps_gen_getLocalJSON : keeps.

Lemma keeps_gen_getFile (this : Gen.Package) (file : string) :
  keeps (Gen.getFile env this file).
Proof. unfold Gen.getFile. cbv zeta. keeps_tac. Qed.

#[local] Hint Resolve keeps_gen_getFile : keeps.

Lemma keeps_gen_getFiles (this : Gen.Package) (l : list string) :
  forall ch, keeps (Gen.getFiles env this l ch).
Proof.
  induction l as [| file rest IH]; intros ch; simpl; unfold Gen.drain; keeps_tac.
Qed.

Lemma keeps_gen_getDependencies (this : Gen.Package) (deps : list (string * string)) :
  forall ch, keeps (Gen.getDependencies env install_dep this deps ch).
Proof.
  induction deps as [| [name0 version0] rest IH]; intros ch; simpl;
    unfold Gen.drain; keeps_tac.
Qed.

Lemma keeps_gen_failed {A} (this : Gen.Package) : keeps (@Gen.failed env A this).
Proof. unfold Gen.failed, Gen.destroy. keeps_tac. Qed.

#[local] Hint Resolve keeps_gen_getFiles keeps_gen_getDependencies : keeps.

Lemma keeps_gen_loop (rest : list string) :
  forall (this : Gen.Package) (i : nat),
    keeps (Gen.reallyInstall_loop env install_dep this rest i).
Proof.
  induction rest as [| r rest IH]; intros this i; simpl; [apply keeps_gen_failed |].
  destruct (Js.falsy r); [apply keeps_gen_failed |].
  unfold Gen.writeFile, Gen.flush. keeps_tac.
Qed.

#[local] Hint Resolve keeps_gen_loop : keeps.

Lemma keeps_gen_install_with (this : Gen.Package) :
  keeps (Gen.install_with env install_dep this).
Proof. unfold Gen.install_with, Gen.reallyInstall. cbv zeta. keeps_tac. Qed.

End GenKeeps.

Lemma keeps_gen_install (env : Env) (fuel : nat) :
  forall this, keeps (Gen.install env fuel this).
Proof.
  induction fuel as [| n IH]; intros this; simpl;
    apply keeps_gen_install_with; [intros p; apply keeps_out_of_fuel | exact IH].
Qed.

(** ** Installing a slug twice *)

Lemma in_flight_lookup (w : World) (s : string) :
  in_flight w s = true -> inFlight w !! s = Some true.
Proof.
  unfold in_flight. destruct (inFlight w !! s) as [[|] |]; done.
Qed.

Lemma mark_in_flight_again (w : World) (s : string) :
  in_flight w s = true -> snd (mark_in_flight s w) = w.
Proof.
  intros H. unfold mark_in_flight. simpl.
  rewrite (insert_id _ _ _ (in_flight_lookup _ _ H)). by destruct w.
Qed.

Lemma cb_new_Package_returns (env : Env) (c : ascii) (pkg : string) (c' : ascii)
    (ver : string) (o : Options) (w : World) :
  exists this,
    Cb.new_Package env (String c pkg) (String c' ver) o w
    = (Return this, snd (mark_in_flight (slug_of (String c pkg) (String c' ver)) w))
    /\ Cb.slug this = slug_of (String c pkg) (String c' ver)
    /\ Cb.this_inFlight this = in_flight w (slug_of (String c pkg) (String c' ver)).
Proof.
  unfold Cb.new_Package, slug_of.
  destruct (String.eqb "*" (String c' ver)); eexists; split_and!; reflexivity.
Qed.

Lemma cb_install_in_flight (env : Env) (fuel : nat) (this : Cb.Package) (w : World) :
  Cb.this_inFlight this = true ->
  Cb.install env fuel this w
  = (Return true, mkWorld (inFlight w) (fs w) (log w ++ [EmitEnd (Cb.slug this)])).
Proof.
  intros H. destruct fuel; simpl; unfold Cb.install_with; by rewrite H.
Qed.

Lemma gen_new_Package_returns (env : Env) (c : ascii) (pkg : string) (c' : ascii)
    (ver : string) (o : Options) (w : World) :
  exists this,
    Gen.new_Package env (String c pkg) (String c' ver) o w = (Return this, w)
    /\ Gen.slug this = slug_of (String c pkg) (String c' ver).
Proof.
  unfold Gen.new_Package, slug_of.
  destruct (String.eqb "*" (String c' ver)); eexists; split; reflexivity.
Qed.

Lemma gen_install_in_flight (env : Env) (fuel : nat) (this : Gen.Package) (w : World) :
  in_flight w (Gen.slug this) = true ->
  Gen.install env fuel this w = (Return this, w).
Proof.
  intros H. destruct fuel; simpl; unfold Gen.install_with, bind, get_world; by rewrite H.
Qed.

Lemma gen_install_marks (env : Env) (fuel : nat) (this : Gen.Package) (w : World) :
  in_flight (snd (Gen.install env fuel this w)) (Gen.slug this) = true.
Proof.
  destruct (in_flight w (Gen.slug this)) eqn:Hw.
  - by rewrite gen_install_in_flight.
  - assert (Hdep : forall p, keeps (match fuel with
                                    | O => fun _ => out_of_fuel
                                    | S n => Gen.install env n
                                    end p)).
    { destruct fuel; intros p; [apply keeps_out_of_fuel | apply keeps_gen_install]. }
    assert (Hrun : Gen.install env fuel this w
                   = Gen.install_with env (match fuel with
                                           | O => fun _ => out_of_fuel
                                           | S n => Gen.install env n
                                           end) this w) by (by destruct fuel).
    rewrite Hrun. unfold Gen.install_with at 1. unfold bind at 1, get_world at 1.
    rewrite Hw. unfold bind at 1.
    destruct (mark_in_flight (Gen.slug this) w) as [[[] | | |] wm] eqn:Hm;
      try (unfold mark_in_flight in Hm; discriminate).
    assert (Hwm : in_flight wm (Gen.slug this) = true).
    { pose proof (in_flight_mark w (Gen.slug this) (Gen.slug this)) as Him.
      rewrite Hm in Him. simpl in Him. by rewrite bool_decide_eq_true_2 in Him. }
    match goal with
    | |- in_flight (snd (?m wm)) _ = true =>
        assert (Hk : keeps m)
    end.
    { unfold Gen.reallyInstall. keeps_tac; eauto using keeps_gen_getLocalJSON, keeps_gen_loop. }
    by apply Hk.
Qed.

(** C6. Installing the same slug a second time in the same process does
    nothing, in both revisions and whatever the options (with or without
    [force]): the first installation leaves the slug marked in the in-flight
    registry, no step of an installation ever clears an entry, and the second
    installation completes at once (the first revision emits ['end'], the
    second returns) without any request or file-system call. *)
Theorem second_install_does_nothing :
  (forall env fuel fuel' listening listening' c pkg c' ver o o' w,
      let slug := slug_of (String c pkg) (String c' ver) in
      let w1 := snd (cb_task env fuel listening (String c pkg) (String c' ver) o w) in
      in_flight w1 slug = true
      /\ reg_le w w1
      /\ cb_task env fuel' listening' (String c pkg) (String c' ver) o' w1
         = (Return true, mkWorld (inFlight w1) (fs w1) (log w1 ++ [EmitEnd slug])))
  /\ (forall env fuel fuel' c pkg c' ver o o' w,
      let slug := slug_of (String c pkg) (String c' ver) in
      let w1 := snd (gen_task env fuel (String c pkg) (String c' ver) o w) in
      in_flight w1 slug = true
      /\ reg_le w w1
      /\ gen_task env fuel' (String c pkg) (String c' ver) o' w1 = (Return None, w1)).
Proof.
  split.
  - intros env fuel fuel' listening listening' c pkg c' ver o o' w slug w1.
    subst slug.
    assert (Hmarked : in_flight w1 (slug_of (String c pkg) (String c' ver)) = true).
    { subst w1. unfold cb_task, bind.
      destruct (cb_new_Package_returns env c pkg c' ver o w) as (this & -> & Hslug & _).
      apply keeps_cb_install. rewrite in_flight_mark. by rewrite bool_decide_eq_true_2. }
    split_and!; [exact Hmarked | |].
    + subst w1. apply (keeps_bind (Cb.new_Package env _ _ o)).
      * apply keeps_cb_new_Package.
      * intros a. apply keeps_cb_install.
    + unfold cb_task at 1. unfold bind.
      destruct (cb_new_Package_returns env c pkg c' ver o' w1) as (this & -> & Hslug & Hfl).
      rewrite (mark_in_flight_again _ _ Hmarked).
      rewrite cb_install_in_flight by (simpl; by rewrite Hfl).
      simpl. by rewrite Hslug.
  - intros env fuel fuel' c pkg c' ver o o' w slug w1.
    subst slug.
    assert (Hmarked : in_flight w1 (slug_of (String c pkg) (String c' ver)) = true).
    { subst w1. unfold gen_task, bind.
      destruct (gen_new_Package_returns env c pkg c' ver o w) as (this & -> & Hslug).
      unfold Gen.end_, bind, attempt.
      pose proof (gen_install_marks env fuel this w) as Hm. rewrite Hslug in Hm.
      by destruct (Gen.install env fuel this w) as [[a | e | e |] w']. }
    split_and!; [exact Hmarked | |].
    + subst w1. apply (keeps_bind (Gen.new_Package env _ _ o)).
      * apply keeps_gen_new_Package.
      * intros a. unfold Gen.end_. apply keeps_bind; [| intros; apply keeps_ret].
        apply keeps_attempt, keeps_gen_install.
    + unfold gen_task at 1. unfold bind.
      destruct (gen_new_Package_returns env c pkg c' ver o' w1) as (this & -> & Hslug).
      unfold Gen.end_, bind, attempt.
      rewrite gen_install_in_flight by (by rewrite Hslug).
      reflexivity.
Qed.

(** ** Names without a namespace separator *)

Lemma indexOf_range (c : ascii) (s : string) : -1 <= Js.indexOf c s.
Proof.
  induction s as [| a s IH]; simpl; [lia |].
  destruct (Ascii.eqb a c); [lia |].
  destruct (Z.eqb_spec (Js.indexOf c s) (-1)); lia.
Qed.

Lemma indexOf_absent (c : ascii) (s : string) :
  Js.indexOf c s = -1 <-> ~ In c (list_ascii_of_string s).
Proof.
  induction s as [| a s IH]; simpl.
  - split; [intros _ [] | reflexivity].
  - destruct (Ascii.eqb_spec a c) as [-> | Hne].
    + split; [discriminate | intros H; exfalso; apply H; by left].
    + pose proof (indexOf_range c s) as Hr.
      destruct (Z.eqb_spec (Js.indexOf c s) (-1)) as [He | Hn].
      * split; [| reflexivity]. intros _ [Heq | Hin]; [done |]. by apply IH in Hin.
      * split; [lia |]. intros Hnot. exfalso. apply Hn, IH. intros Hin. apply Hnot. by right.
Qed.

Lemma invalid_name_spec (name : string) :
  Cb.invalid_name name = true <-> ~ has_separator name.
Proof.
  unfold Cb.invalid_name, Js.not_number, Js.bitnot, has_separator.
  rewrite <- indexOf_absent, Z.eqb_eq. unfold Z.lnot. lia.
Qed.

(** C5, as stated, fails: the name [tip] has no separator, yet once its slug
    is in flight a further installation completes without any error, in both
    revisions. *)
Lemma in_flight_name_without_separator_is_not_rejected :
  Js.indexOf "/" "tip" = -1
  /\ (let env := Scenario.env_of (Scenario.always (Reply 200 Scenario.tip_manifest "")) in
      let w1 := snd (gen_task env 1 "tip" "1.0.0" no_options Scenario.fresh) in
      fst (gen_task env 1 "tip" "1.0.0" no_options Scenario.fresh)
      = Return (Some (invalid_name_error "tip"))
      /\ gen_task env 1 "tip" "1.0.0" no_options w1 = (Return None, w1))
  /\ (let env := Scenario.env_of (Scenario.always (Reply 200 Scenario.tip_manifest "")) in
      let w1 := snd (cb_task env 1 true "tip" "1.0.0" no_options Scenario.fresh) in
      cb_task env 1 true "tip" "1.0.0" no_options w1
      = (Return true, mkWorld (inFlight w1) (fs w1) (log w1 ++ [EmitEnd "tip@1.0.0"]))).
Proof. cbv zeta. split_and!; vm_compute; reflexivity. Qed.

(** C5, amended. For a name without a separator whose slug is not in flight
    (for the first revision: was not when the package was constructed),
    [install] fails at once with the invalid-name error: the first revision
    emits it (or throws it when nobody listens), the second throws it after
    marking the slug; no request is sent and the disk is not touched. *)
Theorem install_rejects_name_without_separator :
  (forall env fuel (this : Cb.Package) w,
      ~ has_separator (Cb.name this) -> Cb.this_inFlight this = false ->
      Cb.install env fuel this w
      = if Cb.listens this
        then (Return false,
              mkWorld (inFlight w) (fs w)
                      (log w ++ [EmitError (Cb.slug this) (invalid_name_error (Cb.name this))]))
        else (Throw (invalid_name_error (Cb.name this)), w))
  /\ (forall env fuel (this : Gen.Package) w,
      ~ has_separator (Gen.name this) -> in_flight w (Gen.slug this) = false ->
      Gen.install env fuel this w
      = (Throw (invalid_name_error (Gen.name this)),
         mkWorld (<[Gen.slug this := true]> (inFlight w)) (fs w) (log w))).
Proof.
  split.
  - intros env fuel this w Hsep Hfl. apply invalid_name_spec in Hsep.
    destruct fuel; simpl; unfold Cb.install_with, Cb.emit_error;
      rewrite Hfl, Hsep; by destruct (Cb.listens this).
  - intros env fuel this w Hsep Hfl. apply invalid_name_spec in Hsep.
    destruct fuel; simpl; unfold Gen.install_with, bind, get_world;
      rewrite Hfl; unfold Gen.invalid_name; unfold Cb.invalid_name in Hsep;
      simpl; by rewrite Hsep.
Qed.

Lemma install_rejects_name_without_separator_witness :
  Cb.install (Scenario.env_of (Scenario.always (Reply 200 Scenario.tip_manifest ""))) 1
    (Cb.mkPackage "tip" "tip@1.0.0" "components" ["https://raw.github.com"] None None
                  false None "1.0.0" None false None false)
    Scenario.fresh
  = (Throw (invalid_name_error "tip"), Scenario.fresh)
  /\ Gen.install (Scenario.env_of (Scenario.always (Reply 200 Scenario.tip_manifest ""))) 1
       (Gen.mkPackage "tip" "tip@1.0.0" "components" ["https://raw.github.com"] None ∅
                      false "1.0.0" None [] None false)
       Scenario.fresh
     = (Throw (invalid_name_error "tip"),
        mkWorld (<["tip@1.0.0" := true]> ∅) ∅ []).
Proof.
  split.
  - apply (proj1 install_rejects_name_without_separator
             (Scenario.env_of (Scenario.always (Reply 200 Scenario.tip_manifest ""))) 1%nat
             (Cb.mkPackage "tip" "tip@1.0.0" "components" ["https://raw.github.com"] None None
                           false None "1.0.0" None false None false)
             Scenario.fresh).
    + apply indexOf_absent. reflexivity.
    + reflexivity.
  - apply (proj2 install_rejects_name_without_separator
             (Scenario.env_of (Scenario.always (Reply 200 Scenario.tip_manifest ""))) 1%nat
             (Gen.mkPackage "tip" "tip@1.0.0" "components" ["https://raw.github.com"] None ∅
                            false "1.0.0" None [] None false)
             Scenario.fresh).
    + apply indexOf_absent. reflexivity.
    + reflexivity.
Defined.

(** ** Which errors are fatal *)

(** C2, as stated, fails: with the mirrors [m1; m2], a 500 response of [m1]
    for the manifest is emitted by the first revision with [fatal] set,
    although [m1] is not the last mirror; the engine then goes on to [m2]
    and completes. *)
Lemma error_500_on_first_mirror_is_marked_fatal :
  let env := Scenario.env_of Scenario.m1_500_m2_200 in
  let run := cb_task env 1 true "component/tip" "0.3.0" Scenario.two_mirrors Scenario.fresh in
  fst run = Return true
  /\ log (snd run) !! 2%nat
     = Some (EmitError "component/tip@0.3.0"
               (mkError
                  ("failed to fetch https://m1.example.com/component/tip/0.3.0/component.json, got 500 "
                   +:+ dquote +:+ "status" +:+ dquote)
                  (Some 500) None None (Some true)))
  /\ log (snd run) !! 3%nat
     = Some (NetGet "https://m2.example.com/component/tip/0.3.0/component.json"
               (mkReq None None None true None None)).
Proof. cbv zeta. split_and!; vm_compute; reflexivity. Qed.

Lemma cb_next_after_failed_fetch (env : Env) (install_dep : Cb.Package -> M bool)
    (this : Cb.Package) (r : string) (rest : list string) (i : nat)
    (w : World) (err : Error) (w1 : World) :
  Js.falsy r = false ->
  Cb.getJSON env (bind_mirror_cb env r this) w = (Return (inl err), w1) ->
  Cb.next env install_dep this (r :: rest) i w
  = Cb.next env install_dep (bind_mirror_cb env r this) rest (S i)
      (if Cb.listens this
       then logged (EmitError (Cb.slug this)
                      (mark_fatal (Nat.eqb (S i) (List.length (Cb.remotes this))) err)) w1
       else w1).
Proof.
  intros Hr Hjson.
  simpl. rewrite Hr. unfold bind at 1. unfold bind_mirror_cb in *. rewrite Hjson.
  unfold bind at 1. simpl.
  destruct (Cb.listens this); reflexivity.
Qed.

Lemma gen_loop_after_failed_fetch (env : Env) (install_dep : Gen.Package -> M Gen.Package)
    (this : Gen.Package) (r : string) (rest : list string) (i : nat)
    (w : World) (err : Error) (w1 : World) :
  Js.falsy r = false ->
  Gen.getJSON env (bind_mirror_gen env r this) w = (Throw err, w1) ->
  Gen.reallyInstall_loop env install_dep this (r :: rest) i w
  = if Nat.eqb (S i) (List.length (Gen.remotes this)) then (Throw err, w1)
    else Gen.reallyInstall_loop env install_dep (bind_mirror_gen env r this) rest (S i) w1.
Proof.
  intros Hr Hjson.
  simpl. rewrite Hr. unfold bind at 1, attempt at 1.
  unfold bind_mirror_gen in *. rewrite Hjson.
  change (Gen.remotes (Gen.set_remote (Some (Js.slice_0_m1 (href env r))) this))
    with (Gen.remotes this).
  simpl. destruct (List.length (Gen.remotes this)) as [| m]; [reflexivity |].
  destruct (Nat.eqb i m); reflexivity.
Qed.

(** C2, amended. When the manifest fetch from mirror number [i + 1] fails:
    the first revision marks the error fatal exactly when its status is not
    404 or the mirror is the last of the list, emits it to the listeners and
    goes on with the rest of the list; the second revision rethrows the
    error exactly when the mirror is the last of the list, and otherwise
    drops it and goes on with the next mirror. *)
Theorem manifest_error_fatality :
  (forall env install_dep (this : Cb.Package) r rest (i : nat) w err w1,
      Js.falsy r = false ->
      Cb.getJSON env (bind_mirror_cb env r this) w = (Return (inl err), w1) ->
      let last := Nat.eqb (S i) (List.length (Cb.remotes this)) in
      fatal (mark_fatal last err)
      = Some (negb (bool_decide (status err = Some 404)) || last)
      /\ Cb.next env install_dep this (r :: rest) i w
         = Cb.next env install_dep (bind_mirror_cb env r this) rest (S i)
             (if Cb.listens this
              then logged (EmitError (Cb.slug this) (mark_fatal last err)) w1
              else w1))
  /\ (forall env install_dep (this : Gen.Package) r rest (i : nat) w err w1,
      Js.falsy r = false ->
      Gen.getJSON env (bind_mirror_gen env r this) w = (Throw err, w1) ->
      let last := Nat.eqb (S i) (List.length (Gen.remotes this)) in
      Gen.reallyInstall_loop env install_dep this (r :: rest) i w
      = if last then (Throw err, w1)
        else Gen.reallyInstall_loop env install_dep (bind_mirror_gen env r this) rest (S i) w1).
Proof.
  split.
  - intros env install_dep this r rest i w err w1 Hr Hjson last.
    split; [reflexivity |]. by apply cb_next_after_failed_fetch.
  - intros env install_dep this r rest i w err w1 Hr Hjson last.
    by apply gen_loop_after_failed_fetch.
Qed.

Lemma manifest_error_fatality_witness :
  (let env := Scenario.env_of Scenario.m1_500_m2_200 in
   let this := Cb.mkPackage "component/tip" "component/tip@0.3.0" "components"
                 [Scenario.m1; Scenario.m2] None None false None "0.3.0" None false None true in
   exists err w1,
     Cb.getJSON env (bind_mirror_cb env Scenario.m1 this) Scenario.fresh = (Return (inl err), w1)
     /\ fatal (mark_fatal false err) = Some true
     /\ Cb.next env (fun _ => out_of_fuel) this [Scenario.m1; Scenario.m2] 0 Scenario.fresh
        = Cb.next env (fun _ => out_of_fuel) (bind_mirror_cb env Scenario.m1 this)
            [Scenario.m2] 1
            (logged (EmitError "component/tip@0.3.0" (mark_fatal false err)) w1))
  /\ (let env := Scenario.env_of Scenario.m1_500_m2_200 in
      let this := Gen.mkPackage "component/tip" "component/tip@0.3.0" "components"
                    [Scenario.m1; Scenario.m2] None ∅ false "0.3.0" None [] None false in
      exists err w1,
        Gen.getJSON env (bind_mirror_gen env Scenario.m1 this) Scenario.fresh = (Throw err, w1)
        /\ Gen.reallyInstall_loop env (fun _ => out_of_fuel) this
             [Scenario.m1; Scenario.m2] 0 Scenario.fresh
           = Gen.reallyInstall_loop env (fun _ => out_of_fuel)
               (bind_mirror_gen env Scenario.m1 this) [Scenario.m2] 1 w1).
Proof.
  cbv zeta. split.
  - eexists _, _. split; [vm_compute; reflexivity |]. split; [reflexivity |].
    eapply (proj1 manifest_error_fatality
             (Scenario.env_of Scenario.m1_500_m2_200) (fun _ => out_of_fuel)
             (Cb.mkPackage "component/tip" "component/tip@0.3.0" "components"
                [Scenario.m1; Scenario.m2] None None false None "0.3.0" None false None true)
             Scenario.m1 [Scenario.m2] 0%nat Scenario.fresh);
      vm_compute; reflexivity.
  - eexists _, _. split; [vm_compute; reflexivity |].
    eapply (proj2 manifest_error_fatality
             (Scenario.env_of Scenario.m1_500_m2_200) (fun _ => out_of_fuel)
             (Gen.mkPackage "component/tip" "component/tip@0.3.0" "components"
                [Scenario.m1; Scenario.m2] None ∅ false "0.3.0" None [] None false)
             Scenario.m1 [Scenario.m2] 0%nat Scenario.fresh);
      vm_compute; reflexivity.
Defined.

(** ** Mirror failover and clean-up, on concrete runs *)

(** The first revision on the scenario of C1: [m1] answers 404, [m2]
    answers 200.  The installation ends with ['end'], the manifest and both
    files come from [m2]. *)
Lemma cb_fails_over_to_second_mirror :
  let env := Scenario.env_of Scenario.m1_404_m2_200 in
  let run := cb_task env 1 true "component/tip" "0.3.0" Scenario.two_mirrors Scenario.fresh in
  fst run = Return true
  /\ log (snd run)
     = [ FsExists (tip_dir +:+ "/component.json");
         get_manifest Scenario.m1;
         EmitError "component/tip@0.3.0" error_404_m1;
         get_manifest Scenario.m2;
         FsMkdirp tip_dir;
         FsWrite (tip_dir +:+ "/component.json");
         FsMkdirp tip_dir;
         EmitFile "component/tip@0.3.0" "index.js"
                  "https://m2.example.com/component/tip/0.3.0/index.js";
         get_file Scenario.m2 "index.js";
         EmitFile "component/tip@0.3.0" "a.css"
                  "https://m2.example.com/component/tip/0.3.0/a.css";
         get_file Scenario.m2 "a.css";
         EmitEnd "component/tip@0.3.0" ]
  /\ fs (snd run) !! (tip_dir +:+ "/index.js") = Some (File "content").
Proof. cbv zeta. split_and!; vm_compute; reflexivity. Qed.

(** C1 on the second revision, with [m1] answering 404.  When [m2] answers
    200, [getJSON] throws on that response and, [m2] being the last mirror,
    the installation fails with it; no file URL is built and nothing is
    written.  When [m2] answers the manifest with 400, the status this
    revision accepts, the files are fetched from [m2], but the loop then runs
    off the end of the list: the package directory is removed and the
    installation fails all the same. *)
Theorem gen_failover_to_second_mirror_fails :
  (let env := Scenario.env_of Scenario.m1_404_m2_200 in
   let run := gen_task env 1 "component/tip" "0.3.0" Scenario.two_mirrors Scenario.fresh in
   fst run = Return (Some error_200_m2)
   /\ log (snd run)
      = [ FsRead (tip_dir +:+ "/component.json");
          get_manifest Scenario.m1;
          get_manifest Scenario.m2 ]
   /\ fs (snd run) = ∅)
  /\ (let env := Scenario.env_of m1_404_m2_accepted in
      let run := gen_task env 1 "component/tip" "0.3.0" Scenario.two_mirrors Scenario.fresh in
      fst run = Return (Some cant_find_remote)
      /\ log (snd run)
         = [ FsRead (tip_dir +:+ "/component.json");
             get_manifest Scenario.m1;
             get_manifest Scenario.m2;
             FsMkdirp tip_dir;
             FsWrite (tip_dir +:+ "/component.json");
             EmitFile "component/tip@0.3.0" "index.js"
                      "https://m2.example.com/component/tip/0.3.0/index.js";
             FsMkdirp tip_dir;
             get_file Scenario.m2 "index.js";
             EmitFile "component/tip@0.3.0" "a.css"
                      "https://m2.example.com/component/tip/0.3.0/a.css";
             FsMkdirp tip_dir;
             get_file Scenario.m2 "a.css";
             FsRimraf tip_dir ]
      /\ path_exists (fs (snd run)) tip_dir = false).
Proof. cbv zeta. split_and!; vm_compute; reflexivity. Qed.

Lemma never_returns_throw {A} (e : Error) : never_returns (@throw A e).
Proof. intros w. exact I. Qed.

Lemma never_returns_bind {A B} (m : M A) (k : A -> M B) :
  (forall a, never_returns (k a)) -> never_returns (bind m k).
Proof.
  intros Hk w. unfold bind.
  destruct (m w) as [[a | e | e |] w']; simpl; try exact I. apply Hk.
Qed.

(** The [while] loop of the second revision has no [return]: whatever the
    mirrors answer, [reallyInstall] ends by throwing (or not at all). *)
Lemma gen_reallyInstall_never_returns (env : Env)
    (install_dep : Gen.Package -> M Gen.Package) (rest : list string) :
  forall this i, never_returns (Gen.reallyInstall_loop env install_dep this rest i).
Proof.
  assert (Hfailed : forall this, never_returns (@Gen.failed env Gen.Package this)).
  { intros this. apply never_returns_bind. intros _. apply never_returns_throw. }
  induction rest as [| r rest IH]; intros this i; simpl; [apply Hfailed |].
  destruct (Js.falsy r); [apply Hfailed |].
  apply never_returns_bind. intros [err | json0].
  - match goal with
    | |- never_returns (if ?b then _ else _) => destruct b
    end; [apply never_returns_throw | apply IH].
  - repeat (apply never_returns_bind; intros ?). apply IH.
Qed.

(** Even when the mirror answers the manifest with the status the second
    revision accepts, the loop runs off the end of the mirror list: the
    freshly installed package is destroyed and the installation fails. *)
Lemma gen_install_destroys_what_it_installed :
  let env := Scenario.env_of manifest_400_files_200 in
  let run := gen_task env 1 "component/tip" "0.3.0" no_options Scenario.fresh in
  fst run = Return (Some cant_find_remote)
  /\ last (log (snd run)) = Some (FsRimraf tip_dir)
  /\ path_exists (fs (snd run)) tip_dir = false.
Proof. cbv zeta. split_and!; vm_compute; reflexivity. Qed.

(** C3 on the second revision: every mirror answers 404 and the package
    directory is already on disk.  The error of the last mirror is thrown
    straight out of the loop; [destroy] is never called and the directory is
    still there when the failure is reported. *)
Theorem gen_fatal_failure_leaves_directory :
  let env := Scenario.env_of (Scenario.always (Reply 404 empty_manifest "Not Found")) in
  let run := gen_task env 1 "component/tip" "0.3.0" no_options Scenario.with_tip_dir in
  fst run = Return (Some error_404_github)
  /\ log (snd run)
     = [ FsRead (tip_dir +:+ "/component.json");
         get_manifest "https://raw.github.com" ]
  /\ path_exists (fs (snd run)) tip_dir = true.
Proof. cbv zeta. split_and!; vm_compute; reflexivity. Qed.

(** The first revision on the same input: after the last mirror has
    failed, the directory is removed and then the final error is emitted. *)
Lemma cb_fatal_failure_removes_directory :
  let env := Scenario.env_of (Scenario.always (Reply 404 empty_manifest "Not Found")) in
  let run := cb_task env 1 true "component/tip" "0.3.0" no_options Scenario.with_tip_dir in
  fst run = Return false
  /\ log (snd run)
     = [ FsExists (tip_dir +:+ "/component.json");
         get_manifest "https://raw.github.com";
         EmitError "component/tip@0.3.0" (set_fatal true error_404_github);
         FsRimraf tip_dir;
         EmitError "component/tip@0.3.0" cant_find_remote ]
  /\ path_exists (fs (snd run)) tip_dir = false.
Proof. cbv zeta. split_and!; vm_compute; reflexivity. Qed.

(** ** Clean-up in general *)

Lemma under_refl (d : string) : Path.under d d = true.
Proof. unfold Path.under. by rewrite String.eqb_refl. Qed.

Lemma remove_tree_removes (d p : string) (f : gmap string node) :
  Path.under d p = true -> path_exists (remove_tree d f) p = false.
Proof.
  intros Hu. unfold path_exists, remove_tree.
  destruct (filter _ f !! p) as [n |] eqn:Hl; [| reflexivity].
  apply map_lookup_filter_Some in Hl as [_ Hp]. simpl in Hp. congruence.
Qed.

Lemma remove_tree_keeps (d p : string) (f : gmap string node) :
  Path.under d p = false -> remove_tree d f !! p = f !! p.
Proof.
  intros Hu. unfold remove_tree.
  destruct (f !! p) as [n |] eqn:Hl.
  - apply map_lookup_filter_Some. by split.
  - apply map_lookup_filter_None. left. exact Hl.
Qed.

(** The first revision at the end of the mirror list: the package directory
    is removed first, then the final error is emitted; when [rimraf] itself
    fails, its error is emitted before the final one. *)
Lemma cb_no_remote_removes_directory (env : Env) (this : Cb.Package) (w : World) :
  Cb.listens this = true ->
  rimraf_error env (Cb.dirname env this) = None ->
  let w' := snd (Cb.no_remote env this w) in
  fst (Cb.no_remote env this w) = Return false
  /\ log w'
     = (log w ++ [FsRimraf (Cb.dirname env this);
                  EmitError (Cb.slug this)
                    (new_Error ("can't find remote for " +:+ dquote +:+ Cb.name this +:+ dquote))])%list
  /\ path_exists (fs w') (Cb.dirname env this) = false.
Proof.
  intros Hl Hr. unfold Cb.no_remote, Cb.destroy, rimraf, Cb.emit_error.
  rewrite Hl. unfold bind, emit_log, get_world, set_fs, ret. simpl.
  rewrite Hr. simpl. split_and!.
  - reflexivity.
  - by rewrite <- app_assoc.
  - apply remove_tree_removes, under_refl.
Qed.

Lemma gen_getJSON_rejected (env : Env) (this : Gen.Package) (r : string) (w : World) :
  gen_rejects env this r ->
  exists e,
    Gen.getJSON env (bind_mirror_gen env r this) w
    = (Throw e, logged (NetGet (gen_manifest_url env this r)
                               (gen_manifest_request env this r)) w).
Proof.
  unfold gen_rejects, Gen.getJSON, http_request, bind, emit_log.
  change (Gen.url (bind_mirror_gen env r this) "component.json")
    with (gen_manifest_url env this r).
  change (mkReq None None None true
            (Gen.encodeAuth env (bind_mirror_gen env r this)
               (hostname env (gen_manifest_url env this r))) None)
    with (gen_manifest_request env this r).
  destruct (request env _ _) as [e | sc b text]; simpl; intros Hrej.
  - eexists. reflexivity.
  - destruct (Z.eqb_spec sc 400) as [-> | _]; [done |]. eexists. reflexivity.
Qed.

(** When no mirror serves the manifest, the loop of the second revision asks
    every mirror once, in order, and throws the error of the last one; the
    disk is left as it was, [destroy] not being reached. *)
Lemma gen_loop_all_rejected (env : Env) (install_dep : Gen.Package -> M Gen.Package)
    (rest : list string) :
  forall (this : Gen.Package) (i : nat) (w : World),
    rest <> [] ->
    (i + List.length rest = List.length (Gen.remotes this))%nat ->
    Forall (fun r => Js.falsy r = false /\ gen_rejects env this r) rest ->
    exists e,
      Gen.reallyInstall_loop env install_dep this rest i w
      = (Throw e,
         mkWorld (inFlight w) (fs w)
           (log w ++ map (fun r => NetGet (gen_manifest_url env this r)
                                          (gen_manifest_request env this r)) rest)).
Proof.
  induction rest as [| r rest IH]; intros this i w Hne Hlen Hall; [done |].
  apply Forall_cons in Hall as [[Hr Hrej] Hall].
  destruct (gen_getJSON_rejected env this r w Hrej) as [e He].
  rewrite (gen_loop_after_failed_fetch env install_dep this r rest i w e _ Hr He).
  destruct rest as [| r' rest'].
  - simpl in Hlen. replace (S i) with (List.length (Gen.remotes this)) by lia.
    rewrite Nat.eqb_refl. exists e. reflexivity.
  - destruct (Nat.eqb_spec (S i) (List.length (Gen.remotes this))) as [Heq | _];
      [simpl in Hlen; lia |].
    destruct (IH (bind_mirror_gen env r this) (S i)
                (logged (NetGet (gen_manifest_url env this r)
                                (gen_manifest_request env this r)) w))
      as [e' He']; [done | simpl in *; lia | exact Hall |].
    exists e'. rewrite He'. unfold logged. simpl. by rewrite <- app_assoc.
Qed.

(** Hence a failure of every mirror never cleans up in the second revision:
    [reallyInstall] throws with the disk untouched and with nothing but the
    manifest requests issued. *)
Lemma gen_reallyInstall_all_rejected (env : Env)
    (install_dep : Gen.Package -> M Gen.Package) (this : Gen.Package) (w : World) :
  Gen.remotes this <> [] ->
  Forall (fun r => Js.falsy r = false /\ gen_rejects env this r) (Gen.remotes this) ->
  exists e,
    fst (Gen.reallyInstall env install_dep this w) = Throw e
    /\ fs (snd (Gen.reallyInstall env install_dep this w)) = fs w
    /\ Forall (fun ev => is_net ev = true)
         (drop (List.length (log w)) (log (snd (Gen.reallyInstall env install_dep this w)))).
Proof.
  intros Hne Hall. unfold Gen.reallyInstall.
  destruct (gen_loop_all_rejected env install_dep (Gen.remotes this) this 0 w Hne eq_refl Hall)
    as [e He].
  exists e. rewrite He. simpl. split_and!; [reflexivity | reflexivity |].
  rewrite drop_app_length. apply Forall_map, Forall_forall. by intros r _.
Qed.

(** Both revisions drop the last character of the parsed mirror, whether or
    not it is a slash: for the mirror [https://m2.example.com/mirror] the
    manifest is requested under [https://m2.example.com/mirro]. *)
Lemma last_character_of_mirror_is_dropped :
  let o := mkOptions None (Some ["https://m2.example.com/mirror"]) None None false None None in
  log (snd (cb_task path_mirror_env 1 true "component/tip" "0.3.0" o Scenario.fresh)) !! 1%nat
  = Some (get_manifest "https://m2.example.com/mirro")
  /\ log (snd (gen_task path_mirror_env 1 "component/tip" "0.3.0" o Scenario.fresh)) !! 1%nat
     = Some (get_manifest "https://m2.example.com/mirro").
Proof. cbv zeta. split; vm_compute; reflexivity. Qed.

Lemma never_returns_elim {A} (m : M A) (w w' : World) (a : A) :
  never_returns m -> m w = (Return a, w') -> False.
Proof. intros Hn Hm. specialize (Hn w). by rewrite Hm in Hn. Qed.

(** Consequently [install] of the second revision returns normally only
    when it has not installed anything: the slug was in flight, or the
    package was already on disk and [force] was off.  In both cases no
    request has been sent. *)
Lemma gen_install_returns_without_fetching (env : Env) (fuel : nat)
    (this this' : Gen.Package) (w w' : World) :
  Gen.install env fuel this w = (Return this', w') ->
  (w' = w /\ in_flight w (Gen.slug this) = true)
  \/ (Gen.force this = false
      /\ log w' = (log w ++ [FsRead (Gen.join env this "component.json")])%list
      /\ fs w' = fs w).
Proof.
  assert (Hrun : Gen.install env fuel this w
                 = Gen.install_with env (match fuel with
                                         | O => fun _ => out_of_fuel
                                         | S n => Gen.install env n
                                         end) this w) by (by destruct fuel).
  rewrite Hrun. clear Hrun.
  unfold Gen.install_with, bind, get_world.
  destruct (in_flight w (Gen.slug this)) eqn:Hfl.
  { intros [= <- <-]. by left. }
  unfold mark_in_flight. destruct (Gen.invalid_name (Gen.name this)); [discriminate |].
  unfold attempt, Gen.getLocalJSON, bind, fs_readFile, emit_log, get_world, bind, ret.
  simpl.
  destruct (fs w !! Gen.join env this "component.json") as [[| content] |] eqn:Hfile;
    simpl; [discriminate | |].
  - destruct (parse env content) as [m | msg]; simpl; [| discriminate].
    destruct (Gen.force this) eqn:Hforce; simpl.
    + intros H. exfalso. eapply never_returns_elim; [| exact H].
      apply gen_reallyInstall_never_returns.
    + intros [= <- <-]. right. by split_and!.
  - intros H. exfalso. eapply never_returns_elim; [| exact H].
    apply gen_reallyInstall_never_returns.
Qed.

(** ** Package directories and the paths inside them *)

Lemma string_app_cons (a : ascii) (s t : string) :
  String a s +:+ t = String a (s +:+ t).
Proof. reflexivity. Qed.

Lemma string_app_nil_l (s : string) : EmptyString +:+ s = s.
Proof. reflexivity. Qed.

Lemma string_app_nil_r (s : string) : s +:+ EmptyString = s.
Proof.
  induction s as [| a s IH]; [reflexivity |]. by rewrite string_app_cons, IH.
Qed.

Lemma string_app_assoc (a b c : string) : (a +:+ b) +:+ c = a +:+ b +:+ c.
Proof.
  induction a as [| x a IH]; [reflexivity |]. by rewrite !string_app_cons, IH.
Qed.

Lemma split_aux_nonempty (c : ascii) (s cur : string) : Js.split_aux c s cur <> [].
Proof.
  revert cur. induction s as [| a s IH]; intros cur; simpl; [done |].
  destruct (Ascii.eqb a c); [done | apply IH].
Qed.

Lemma join_cons (sep x : string) (l : list string) :
  l <> [] -> Js.join sep (x :: l) = x +:+ sep +:+ Js.join sep l.
Proof. destruct l; [done | reflexivity]. Qed.

Lemma join_split_aux_hyphen (s cur : string) :
  Js.join "-" (Js.split_aux "/" s cur) = cur +:+ hyphenate s.
Proof.
  revert cur. induction s as [| a s IH]; intros cur; simpl.
  - by rewrite string_app_nil_r.
  - destruct (Ascii.eqb a "/").
    + rewrite join_cons by apply split_aux_nonempty. by rewrite IH.
    + rewrite IH. by rewrite string_app_assoc.
Qed.

(** [name.split('/').join('-')] replaces every slash by a hyphen. *)
Lemma join_split_hyphen (s : string) :
  Js.join "-" (Js.split "/" s) = hyphenate s.
Proof. unfold Js.split. by rewrite join_split_aux_hyphen. Qed.

Lemma split_aux_app (c : ascii) (a b cur : string) :
  Js.split_aux c (a +:+ String c b) cur
  = (Js.split_aux c a cur ++ Js.split_aux c b EmptyString)%list.
Proof.
  revert cur. induction a as [| x a IH]; intros cur.
  - rewrite string_app_nil_l. simpl. by rewrite Ascii.eqb_refl.
  - rewrite string_app_cons. simpl.
    destruct (Ascii.eqb x c); [by rewrite IH | apply IH].
Qed.

Lemma split_app (a b : string) :
  Js.split "/" (a +:+ "/" +:+ b) = (Js.split "/" a ++ Js.split "/" b)%list.
Proof. unfold Js.split. apply (split_aux_app "/" a b EmptyString). Qed.

Lemma split_aux_plain (s cur : string) :
  ~ In "/"%char (list_ascii_of_string s) -> Js.split_aux "/" s cur = [cur +:+ s].
Proof.
  revert cur. induction s as [| a s IH]; intros cur Hno; simpl.
  - by rewrite string_app_nil_r.
  - destruct (Ascii.eqb_spec a "/") as [-> | Hne].
    + exfalso. apply Hno. by left.
    + rewrite IH; [by rewrite string_app_assoc |].
      intros Hin. apply Hno. by right.
Qed.

Lemma split_plain (s : string) :
  ~ In "/"%char (list_ascii_of_string s) -> Js.split "/" s = [s].
Proof. intros H. unfold Js.split. by rewrite split_aux_plain. Qed.

Lemma join_snoc (sep x : string) (l : list string) :
  l <> [] -> Js.join sep (l ++ [x]) = Js.join sep l +:+ sep +:+ x.
Proof.
  induction l as [| y l IH]; [done |]. intros _.
  destruct l as [| z l].
  - reflexivity.
  - change ((y :: z :: l) ++ [x])%list with (y :: ((z :: l) ++ [x]))%list.
    rewrite join_cons by (by destruct l).
    rewrite IH by done. rewrite (join_cons sep y (z :: l)) by done.
    by rewrite !string_app_assoc.
Qed.

Lemma normalize_rev_app (allow : bool) (l1 l2 acc : list string) :
  Path.normalize_rev allow (l1 ++ l2) acc
  = Path.normalize_rev allow l2 (Path.normalize_rev allow l1 acc).
Proof.
  revert acc. induction l1 as [| seg l1 IH]; intros acc; simpl; [reflexivity |].
  destruct (String.eqb seg "" || String.eqb seg "."); [apply IH |].
  destruct (String.eqb seg "..").
  - destruct acc as [| top acc']; [destruct allow; apply IH |].
    destruct (String.eqb top ".."); apply IH.
  - apply IH.
Qed.

Lemma normalize_rev_plain (allow : bool) (seg : string) (acc : list string) :
  plain_segment seg -> Path.normalize_rev allow [seg; EmptyString] acc = seg :: acc.
Proof.
  intros (_ & He & Hd & Hdd). simpl.
  apply String.eqb_neq in He, Hd, Hdd. by rewrite He, Hd, Hdd.
Qed.

Lemma normalize_rev_nonempty (allow : bool) (segs acc : list string) :
  Forall (fun s => s <> EmptyString) acc ->
  Forall (fun s => s <> EmptyString) (Path.normalize_rev allow segs acc).
Proof.
  revert acc. induction segs as [| seg segs IH]; intros acc Hacc; simpl; [exact Hacc |].
  destruct (String.eqb_spec seg "") as [-> | Hne]; simpl; [by apply IH |].
  destruct (String.eqb seg "."); [by apply IH |].
  destruct (String.eqb_spec seg "..") as [-> | _].
  - destruct acc as [| top acc']; [destruct allow; apply IH; repeat constructor; done |].
    destruct (String.eqb top "..").
    + apply IH. constructor; [done | exact Hacc].
    + apply IH. by inversion Hacc.
  - apply IH. by constructor.
Qed.

Lemma chars_app (a b : string) :
  list_ascii_of_string (a +:+ b)
  = (list_ascii_of_string a ++ list_ascii_of_string b)%list.
Proof.
  induction a as [| x a IH]; [reflexivity |].
  rewrite string_app_cons. simpl. by rewrite IH.
Qed.

Lemma split_aux_no_slash (s cur : string) :
  no_slash cur -> Forall no_slash (Js.split_aux "/" s cur).
Proof.
  revert cur. induction s as [| a s IH]; intros cur Hcur; simpl; [by constructor |].
  destruct (Ascii.eqb_spec a "/") as [-> | Hne].
  - constructor; [exact Hcur |]. apply IH. intros [].
  - apply IH. unfold no_slash in *. rewrite chars_app. simpl.
    intros Hin. apply in_app_or in Hin as [Hin | [-> | []]]; [by apply Hcur | done].
Qed.

Lemma split_no_slash (s : string) : Forall no_slash (Js.split "/" s).
Proof. apply split_aux_no_slash. intros []. Qed.

Lemma normalize_rev_keeps_plain (segs acc : list string) :
  Forall no_slash segs -> Forall plain_segment acc ->
  Forall plain_segment (Path.normalize_rev false segs acc).
Proof.
  intros Hsegs. revert acc.
  induction Hsegs as [| seg segs Hseg _ IH]; intros acc Hacc; simpl; [exact Hacc |].
  destruct (String.eqb_spec seg "") as [-> | He]; simpl; [by apply IH |].
  destruct (String.eqb_spec seg ".") as [-> | Hd]; [by apply IH |].
  destruct (String.eqb_spec seg "..") as [-> | Hdd].
  - destruct acc as [| top acc']; [by apply IH |].
    inversion Hacc as [| ? ? Htop Hacc']; subst.
    destruct (String.eqb_spec top "..") as [-> | _].
    + destruct Htop as (_ & _ & _ & Hne). done.
    + by apply IH.
  - apply IH. constructor; [| exact Hacc]. by split_and!.
Qed.

Lemma normalize_rev_all_plain (segs acc : list string) :
  Forall plain_segment segs ->
  Path.normalize_rev false segs acc = (rev segs ++ acc)%list.
Proof.
  intros Hsegs. revert acc.
  induction Hsegs as [| seg segs Hseg _ IH]; intros acc; simpl; [reflexivity |].
  destruct Hseg as (_ & He & Hd & Hdd).
  apply String.eqb_neq in He, Hd, Hdd. rewrite He, Hd, Hdd. simpl.
  rewrite IH. by rewrite <- app_assoc.
Qed.

Lemma split_join (segs : list string) :
  Forall no_slash segs -> segs <> [] -> Js.split "/" (Js.join "/" segs) = segs.
Proof.
  induction 1 as [| x l Hx Hl IH]; [done |]. intros _.
  destruct l as [| y l]; [by apply split_plain |].
  rewrite join_cons by done. rewrite split_app, split_plain by exact Hx.
  by rewrite IH.
Qed.

Lemma plain_not_absolute (seg : string) :
  plain_segment seg -> Js.falsy seg = false /\ Path.is_absolute seg = false.
Proof.
  intros (Hno & He & _). destruct seg as [| a s]; [done |]. split; [reflexivity |].
  simpl. destruct (Ascii.eqb_spec a "/") as [-> | _]; [| reflexivity].
  exfalso. apply Hno. by left.
Qed.

Lemma absolute_not_falsy (p : string) : Path.is_absolute p = true -> Js.falsy p = false.
Proof. by destruct p. Qed.

(** What is left of a scanned path [y/] and of [y/seg/] after
    normalisation. *)
Lemma normalize_with_segment (y seg : string) :
  plain_segment seg ->
  let S := Path.normalize_rev false (Js.split "/" y) [] in
  Forall plain_segment S
  /\ Path.normalizeString (y +:+ "/" +:+ "") false = Js.join "/" (rev S)
  /\ Path.normalizeString (y +:+ "/" +:+ seg +:+ "/" +:+ "") false
     = Js.join "/" (rev (seg :: S)).
Proof.
  intros Hseg S. split_and!.
  - apply normalize_rev_keeps_plain; [apply split_no_slash | constructor].
  - unfold Path.normalizeString. rewrite split_app, normalize_rev_app. reflexivity.
  - unfold Path.normalizeString.
    rewrite !split_app, !normalize_rev_app.
    rewrite (split_plain seg) by apply Hseg.
    change (Js.split "/" "") with [EmptyString].
    rewrite <- normalize_rev_app. simpl app.
    by rewrite normalize_rev_plain.
Qed.

(** The segments of [path.resolve(d)], with those of [path.resolve(d, seg)],
    for an absolute working directory. *)
Lemma resolve_segments (cwd0 d seg : string) :
  Path.is_absolute cwd0 = true -> plain_segment seg ->
  exists S,
    Forall plain_segment S
    /\ Path.resolve cwd0 [d] = "/" +:+ Js.join "/" (rev S)
    /\ Path.resolve cwd0 [d; seg] = "/" +:+ Js.join "/" (rev (seg :: S)).
Proof.
  intros Hcwd Hseg.
  destruct (plain_not_absolute seg Hseg) as [Hfs Has].
  pose proof (absolute_not_falsy cwd0 Hcwd) as Hfc.
  unfold Path.resolve. simpl rev. simpl app. simpl Path.resolve_scan.
  rewrite Hfs, Has.
  destruct (Js.falsy d) eqn:Hfd.
  - rewrite Hfc, Hcwd.
    destruct (normalize_with_segment cwd0 seg Hseg) as (HS & H1 & H2).
    eexists. split_and!; [exact HS | |]; simpl negb; cbv iota; by f_equal.
  - destruct (Path.is_absolute d) eqn:Had.
    + destruct (normalize_with_segment d seg Hseg) as (HS & H1 & H2).
      eexists. split_and!; [exact HS | |]; simpl negb; cbv iota; by f_equal.
    + rewrite Hfc, Hcwd.
      destruct (normalize_with_segment (cwd0 +:+ "/" +:+ d) seg Hseg) as (HS & H1 & H2).
      rewrite !string_app_assoc in H1, H2.
      eexists. split_and!; [exact HS | |]; simpl negb; cbv iota; by f_equal.
Qed.

Lemma plain_no_slash (segs : list string) :
  Forall plain_segment segs -> Forall no_slash segs.
Proof. intros H. eapply Forall_impl; [exact H |]. by intros s [Hs _]. Qed.

(** [path.resolve] of an already resolved path and a plain segment appends
    the segment. *)
Lemma resolve_of_segments (cwd0 : string) (segs : list string) (seg : string) :
  Forall plain_segment segs -> plain_segment seg ->
  Path.resolve cwd0 ["/" +:+ Js.join "/" segs; seg]
  = "/" +:+ Js.join "/" (segs ++ [seg]).
Proof.
  intros Hsegs Hseg.
  destruct (plain_not_absolute seg Hseg) as [Hfs Has].
  unfold Path.resolve. simpl rev. simpl app. simpl Path.resolve_scan.
  rewrite Hfs, Has.
  change (Js.falsy ("/" +:+ Js.join "/" segs)) with false.
  change (Path.is_absolute ("/" +:+ Js.join "/" segs)) with true.
  cbv iota. simpl negb. cbv iota. f_equal.
  unfold Path.normalizeString.
  rewrite string_app_assoc.
  change ("/" +:+ Js.join "/" segs +:+ "/" +:+ seg +:+ "/" +:+ "")
    with (EmptyString +:+ "/" +:+ Js.join "/" segs +:+ "/" +:+ seg +:+ "/" +:+ "").
  rewrite !split_app, (split_plain seg) by apply Hseg.
  change (Js.split "/" "") with [EmptyString].
  f_equal.
  destruct segs as [| x l].
  - change (Path.normalize_rev false
              ([EmptyString] ++ Js.split "/" (Js.join "/" []) ++ [seg] ++ [EmptyString]) [])
      with (Path.normalize_rev false [seg; EmptyString] []).
    by rewrite normalize_rev_plain.
  - rewrite split_join by (first [by apply plain_no_slash | done]).
    change ([EmptyString] ++ (x :: l) ++ [seg] ++ [EmptyString])%list
      with (EmptyString :: (x :: l) ++ [seg; EmptyString])%list.
    change (Path.normalize_rev false (EmptyString :: (x :: l) ++ [seg; EmptyString]) [])
      with (Path.normalize_rev false ((x :: l) ++ [seg; EmptyString]) []).
    rewrite normalize_rev_app.
    rewrite (normalize_rev_all_plain (x :: l)) by exact Hsegs.
    rewrite normalize_rev_plain by exact Hseg.
    rewrite app_nil_r.
    change (rev (seg :: rev (x :: l))) with (rev (rev (x :: l)) ++ [seg])%list.
    by rewrite rev_involutive.
Qed.

Lemma hyphenate_chars (s : string) :
  ~ In "/"%char (list_ascii_of_string (hyphenate s))
  /\ (In "/"%char (list_ascii_of_string s) ->
      In "-"%char (list_ascii_of_string (hyphenate s))).
Proof.
  induction s as [| a s [IH1 IH2]]; simpl; [by split; intros [] |].
  destruct (Ascii.eqb_spec a "/") as [-> | Hne]; split.
  - intros [H | H]; [discriminate | by apply IH1].
  - intros _. by left.
  - intros [H | H]; [done | by apply IH1].
  - intros [H | H]; [done | right; by apply IH2].
Qed.

Lemma hyphenate_plain (s : string) :
  has_separator s -> plain_segment (hyphenate s).
Proof.
  intros Hs. destruct (hyphenate_chars s) as [Hno Hdash].
  specialize (Hdash Hs).
  split_and!; [exact Hno | | |]; intros Heq; rewrite Heq in Hdash; simpl in Hdash;
    intuition discriminate.
Qed.

Lemma toLowerCase_keeps_separator (s : string) :
  has_separator s -> has_separator (Js.toLowerCase s).
Proof.
  unfold has_separator. induction s as [| a s IH]; simpl; [done |].
  intros [-> | H]; [by left | right; by apply IH].
Qed.



Lemma dirname_segments (cwd0 dest0 name0 : string) :
  Path.is_absolute cwd0 = true -> has_separator name0 ->
  exists segs,
    Forall plain_segment segs /\ segs <> []
    /\ Path.resolve cwd0 [dest0; Js.join "-" (Js.split "/" name0)]
       = "/" +:+ Js.join "/" segs.
Proof.
  intros Hcwd Hname. rewrite join_split_hyphen.
  destruct (resolve_segments cwd0 dest0 (hyphenate name0) Hcwd (hyphenate_plain _ Hname))
    as (S & HS & _ & ->).
  exists (rev (hyphenate name0 :: S)). split_and!; [| | reflexivity].
  - apply Forall_forall. intros y Hy.
    apply list_elem_of_In, in_rev in Hy. destruct Hy as [<- | Hy].
    + by apply hyphenate_plain.
    + by apply (proj1 (Forall_forall _ _) HS), list_elem_of_In.
  - simpl. by destruct (rev S).
Qed.

Lemma resolve_inside (cwd0 : string) (segs : list string) (seg : string) :
  Forall plain_segment segs -> segs <> [] -> plain_segment seg ->
  Path.resolve cwd0 ["/" +:+ Js.join "/" segs; seg]
  = ("/" +:+ Js.join "/" segs) +:+ "/" +:+ seg.
Proof.
  intros Hsegs Hne Hseg. rewrite resolve_of_segments by assumption.
  rewrite join_snoc by exact Hne. by rewrite !string_app_assoc.
Qed.



(** X2. With an absolute working directory and a name that has a separator,
    [join] of a plain relative segment (no slash, not empty, not [.] or [..])
    is that segment directly under the package directory, in both revisions:
    this is where [component.json] is looked up and written. *)
Theorem join_of_segment_is_inside_package_directory (env : Env) :
  Path.is_absolute (cwd env) = true ->
  (forall (this : Cb.Package) (seg : string),
      has_separator (Cb.name this) -> plain_segment seg ->
      Cb.join env this seg = Cb.dirname env this +:+ "/" +:+ seg)
  /\ (forall (this : Gen.Package) (seg : string),
      has_separator (Gen.name this) -> plain_segment seg ->
      Gen.join env this seg = Gen.dirname env this +:+ "/" +:+ seg).
Proof.
  intros Hcwd. split; intros this seg Hname Hseg.
  - unfold Cb.join, Cb.dirname.
    destruct (dirname_segments (cwd env) (Cb.dest this) (Js.toLowerCase (Cb.name this)) Hcwd
                (toLowerCase_keeps_separator _ Hname)) as (segs & Hsegs & Hne & ->).
    by apply resolve_inside.
  - unfold Gen.join, Gen.dirname.
    destruct (dirname_segments (cwd env) (Gen.dest this) (Gen.name this) Hcwd Hname)
      as (segs & Hsegs & Hne & ->).
    by apply resolve_inside.
Qed.

Lemma join_of_segment_is_inside_package_directory_witness :
  Cb.join (Scenario.env_of (Scenario.always (NetError (new_Error "down"))))
    Scenario.tip_cb "lib"
  = "/home/app/components/component-tip/lib"
  /\ Gen.join (Scenario.env_of (Scenario.always (NetError (new_Error "down"))))
       Scenario.tip_gen "component.json"
     = "/home/app/components/component-tip/component.json".
Proof.
  split.
  - rewrite (proj1 (join_of_segment_is_inside_package_directory
                      (Scenario.env_of (Scenario.always (NetError (new_Error "down"))))
                      eq_refl)).
    + reflexivity.
    + unfold has_separator. simpl. tauto.
    + unfold plain_segment. simpl. split_and!; [| done | done | done]. intuition discriminate.
  - rewrite (proj2 (join_of_segment_is_inside_package_directory
                      (Scenario.env_of (Scenario.always (NetError (new_Error "down"))))
                      eq_refl)).
    + reflexivity.
    + unfold has_separator. simpl. tauto.
    + unfold plain_segment. simpl. split_and!; [| done | done | done]. intuition discriminate.
Defined.

(** X3. [join] of an absolute path ignores the package directory: the
    result is the path itself, resolved, whatever the package and its
    destination root, in both revisions. *)
Theorem join_of_absolute_path_leaves_package_directory
    (env : Env) (file : string) :
  Path.is_absolute file = true ->
  (forall this : Cb.Package, Cb.join env this file = Path.resolve (cwd env) [file])
  /\ (forall this : Gen.Package, Gen.join env this file = Path.resolve (cwd env) [file])
  /\ Path.resolve (cwd env) [file] = "/" +:+ Path.normalizeString (file +:+ "/" +:+ "") false.
Proof.
  intros Habs. pose proof (absolute_not_falsy file Habs) as Hf.
  split_and!; [intros this; unfold Cb.join | intros this; unfold Gen.join |];
    unfold Path.resolve; simpl rev; simpl app; simpl Path.resolve_scan;
    rewrite Hf, Habs; reflexivity.
Qed.

Lemma join_of_absolute_path_leaves_package_directory_witness :
  Cb.join (Scenario.env_of (Scenario.always (NetError (new_Error "down"))))
    Scenario.tip_cb "/etc/./cron.d/job"
  = "/etc/cron.d/job"
  /\ Gen.join (Scenario.env_of (Scenario.always (NetError (new_Error "down"))))
       Scenario.tip_gen "/etc/./cron.d/job"
     = "/etc/cron.d/job".
Proof.
  split.
  - rewrite (proj1 (join_of_absolute_path_leaves_package_directory
                      (Scenario.env_of (Scenario.always (NetError (new_Error "down"))))
                      "/etc/./cron.d/job" eq_refl)).
    reflexivity.
  - rewrite (proj1 (proj2 (join_of_absolute_path_leaves_package_directory
                      (Scenario.env_of (Scenario.always (NetError (new_Error "down"))))
                      "/etc/./cron.d/job" eq_refl))).
    reflexivity.
Defined.

(** ** The constructor and the local manifest *)

(** X4. A version given as the wildcard [*] is the version [master]: for
    every name that is not empty, constructing with [*] gives the same package
    and the same process state as constructing with [master], and the package
    has the version [master] and the slug [name@master], in both revisions. *)
Theorem wildcard_version_is_master :
  (forall env c pkg options w,
      Cb.new_Package env (String c pkg) "*" options w
      = Cb.new_Package env (String c pkg) "master" options w
      /\ exists this w',
          Cb.new_Package env (String c pkg) "*" options w = (Return this, w')
          /\ Cb.version this = "master"
          /\ Cb.slug this = String c pkg +:+ "@master"
          /\ in_flight w' (String c pkg +:+ "@master") = true)
  /\ (forall env c pkg options w,
      Gen.new_Package env (String c pkg) "*" options w
      = Gen.new_Package env (String c pkg) "master" options w
      /\ exists this,
          Gen.new_Package env (String c pkg) "*" options w = (Return this, w)
          /\ Gen.version this = "master"
          /\ Gen.slug this = String c pkg +:+ "@master").
Proof.
  split; intros env c pkg options w; (split; [reflexivity |]).
  - destruct (cb_new_Package_returns env c pkg "*" EmptyString options w)
      as (this & Hrun & Hslug & _).
    change (String "*" EmptyString) with "*" in *.
    exists this, (snd (mark_in_flight (slug_of (String c pkg) "*") w)).
    split_and!; [exact Hrun | | exact Hslug |].
    + unfold Cb.new_Package, bind, get_world, mark_in_flight, ret in Hrun.
      simpl in Hrun. by injection Hrun as <-.
    + rewrite in_flight_mark. by rewrite bool_decide_eq_true_2.
  - eexists. split_and!; reflexivity.
Qed.

Lemma has_separator_valid (name0 : string) :
  has_separator name0 -> Cb.invalid_name name0 = false.
Proof.
  intros H. destruct (Cb.invalid_name name0) eqn:Hi; [| reflexivity].
  by apply invalid_name_spec in Hi.
Qed.

(** X5. A package whose manifest is already on disk is not fetched again
    when [force] is off.  The first revision only asks whether
    [component.json] exists and emits ['exists']; the second reads and parses
    it and sets [this.exists].  Neither sends a request or writes to the
    disk. *)
Theorem installed_package_is_not_fetched :
  (forall env fuel (this : Cb.Package) w,
      Cb.this_inFlight this = false ->
      has_separator (Cb.name this) ->
      Cb.force this = false ->
      path_exists (fs w) (Cb.join env this "component.json") = true ->
      Cb.install env fuel this w
      = (Return true,
         mkWorld (inFlight w) (fs w)
           (log w ++ [FsExists (Cb.join env this "component.json");
                      EmitExists (Cb.slug this)])))
  /\ (forall env fuel (this : Gen.Package) w content m,
      in_flight w (Gen.slug this) = false ->
      has_separator (Gen.name this) ->
      Gen.force this = false ->
      fs w !! Gen.join env this "component.json" = Some (File content) ->
      parse env content = inl m ->
      Gen.install env fuel this w
      = (Return (Gen.set_exists true this),
         mkWorld (<[Gen.slug this := true]> (inFlight w)) (fs w)
           (log w ++ [FsRead (Gen.join env this "component.json")]))).
Proof.
  split.
  - intros env fuel this w Hfl Hname Hforce Hex.
    apply has_separator_valid in Hname.
    destruct fuel; simpl; unfold Cb.install_with;
      rewrite Hfl, Hname;
      unfold callback, bind, Cb.exists_, fs_exists, bind, emit_log, get_world, ret;
      simpl; rewrite Hex, Hforce; simpl; by rewrite <- app_assoc.
  - intros env fuel this w content m Hfl Hname Hforce Hfile Hparse.
    apply has_separator_valid in Hname.
    destruct fuel; simpl; unfold Gen.install_with, bind, get_world;
      rewrite Hfl; unfold Gen.invalid_name; unfold Cb.invalid_name in Hname;
      simpl; rewrite Hname;
      unfold attempt, Gen.getLocalJSON, bind, fs_readFile, bind, emit_log, get_world, ret;
      simpl; rewrite Hfile, Hparse, Hforce; reflexivity.
Qed.

(** X6. In the second revision a local [component.json] that does not
    parse makes [install] fail with the parse error, its message extended by
    the path, whether or not [force] is set: the package is not fetched
    again. *)
Theorem unparsable_local_manifest_blocks_install
    (env : Env) (fuel : nat) (this : Gen.Package) (w : World) (content msg : string) :
  in_flight w (Gen.slug this) = false ->
  has_separator (Gen.name this) ->
  fs w !! Gen.join env this "component.json" = Some (File content) ->
  parse env content = inr msg ->
  Gen.install env fuel this w
  = (Throw (new_Error (msg +:+ " in " +:+ Gen.join env this "component.json")),
     mkWorld (<[Gen.slug this := true]> (inFlight w)) (fs w)
       (log w ++ [FsRead (Gen.join env this "component.json")])).
Proof.
  intros Hfl Hname Hfile Hparse.
  apply has_separator_valid in Hname.
  destruct fuel; simpl; unfold Gen.install_with, bind, get_world;
    rewrite Hfl; unfold Gen.invalid_name; unfold Cb.invalid_name in Hname;
    simpl; rewrite Hname;
    unfold attempt, Gen.getLocalJSON, bind, fs_readFile, bind, emit_log, get_world, ret;
    simpl; rewrite Hfile, Hparse; reflexivity.
Qed.

Lemma has_separator_tip : has_separator "component/tip".
Proof. unfold has_separator. simpl. tauto. Qed.

Lemma installed_package_is_not_fetched_witness :
  fst (Cb.install (Scenario.env_of (Scenario.always (NetError (new_Error "down")))) 1
         (Cb.set_listens false Scenario.tip_cb) installed_tip)
  = Return true
  /\ fst (Gen.install (Scenario.env_of (Scenario.always (NetError (new_Error "down")))) 1
            Scenario.tip_gen installed_tip)
     = Return (Gen.set_exists true Scenario.tip_gen).
Proof.
  split.
  - rewrite (proj1 installed_package_is_not_fetched
               (Scenario.env_of (Scenario.always (NetError (new_Error "down")))) 1%nat
               (Cb.set_listens false Scenario.tip_cb) installed_tip
               eq_refl has_separator_tip eq_refl eq_refl).
    reflexivity.
  - rewrite (proj2 installed_package_is_not_fetched
               (Scenario.env_of (Scenario.always (NetError (new_Error "down")))) 1%nat
               Scenario.tip_gen installed_tip "{}" empty_manifest
               eq_refl has_separator_tip eq_refl eq_refl eq_refl).
    reflexivity.
Defined.

Lemma unparsable_local_manifest_blocks_install_witness :
  fst (Gen.install unparsable_env 1 forced_tip_gen installed_tip)
  = Throw (new_Error
             "Unexpected end of input in /home/app/components/component-tip/component.json").
Proof.
  rewrite (unparsable_local_manifest_blocks_install unparsable_env 1 forced_tip_gen
             installed_tip "{}" "Unexpected end of input"
             eq_refl has_separator_tip eq_refl eq_refl).
  reflexivity.
Defined.

(** ** Mirror lists that end at once *)

(** X7. When the mirror list is empty, or its first entry is the empty
    string, [reallyInstall] contacts no mirror: it removes the package
    directory and fails with the error [can't find remote], in both
    revisions (the first emits the error to its listener, the second throws
    it).  Mirrors listed after an empty entry are never tried. *)
Theorem no_usable_mirror_fails_without_request :
  (forall env install_dep (this : Cb.Package) w,
      hd EmptyString (Cb.remotes this) = EmptyString ->
      Cb.listens this = true ->
      rimraf_error env (Cb.dirname env this) = None ->
      Cb.reallyInstall env install_dep this w
      = (Return false,
         mkWorld (inFlight w) (remove_tree (Cb.dirname env this) (fs w))
           (log w ++ [FsRimraf (Cb.dirname env this);
                      EmitError (Cb.slug this)
                        (new_Error ("can't find remote for " +:+ dquote
                                    +:+ Cb.name this +:+ dquote))])))
  /\ (forall env install_dep (this : Gen.Package) w,
      hd EmptyString (Gen.remotes this) = EmptyString ->
      rimraf_error env (Gen.dirname env this) = None ->
      Gen.reallyInstall env install_dep this w
      = (Throw (new_Error ("can't find remote for " +:+ dquote
                           +:+ Gen.name this +:+ dquote)),
         mkWorld (inFlight w) (remove_tree (Gen.dirname env this) (fs w))
           (log w ++ [FsRimraf (Gen.dirname env this)]))).
Proof.
  split.
  - intros env install_dep this w Hhd Hl Hr.
    assert (Hno : Cb.reallyInstall env install_dep this w
                  = Cb.no_remote env (Cb.set_remote None this) w).
    { unfold Cb.reallyInstall. destruct (Cb.remotes this) as [| r rest]; [reflexivity |].
      simpl in Hhd. subst r. reflexivity. }
    rewrite Hno. unfold Cb.no_remote, Cb.destroy, rimraf, Cb.emit_error.
    change (Cb.dirname env (Cb.set_remote None this)) with (Cb.dirname env this).
    change (Cb.listens (Cb.set_remote None this)) with (Cb.listens this).
    unfold bind, emit_log, get_world, set_fs, ret. simpl.
    rewrite Hr, Hl. simpl. by rewrite <- app_assoc.
  - intros env install_dep this w Hhd Hr.
    assert (Hno : Gen.reallyInstall env install_dep this w = Gen.failed env this w).
    { unfold Gen.reallyInstall. destruct (Gen.remotes this) as [| r rest]; [reflexivity |].
      simpl in Hhd. subst r. reflexivity. }
    rewrite Hno. unfold Gen.failed, Gen.destroy, Gen.yield_, rimraf.
    unfold bind, emit_log, get_world, set_fs, ret, throw. simpl.
    rewrite Hr. reflexivity.
Qed.

Lemma no_usable_mirror_fails_without_request_witness :
  fst (Cb.reallyInstall (Scenario.env_of (Scenario.always (Reply 200 Scenario.tip_manifest "")))
         (fun _ => out_of_fuel)
         (Cb.mkPackage "component/tip" "component/tip@0.3.0" "components"
            [EmptyString; Scenario.m2] None None false None "0.3.0" None false None true)
         Scenario.with_tip_dir)
  = Return false
  /\ fst (Gen.reallyInstall
            (Scenario.env_of (Scenario.always (Reply 400 Scenario.tip_manifest "")))
            (fun _ => out_of_fuel)
            (Gen.mkPackage "component/tip" "component/tip@0.3.0" "components"
               [] None ∅ false "0.3.0" None [] None false)
            Scenario.with_tip_dir)
     = Throw cant_find_remote.
Proof.
  split.
  - rewrite (proj1 no_usable_mirror_fails_without_request
               (Scenario.env_of (Scenario.always (Reply 200 Scenario.tip_manifest "")))
               (fun _ => out_of_fuel)
               (Cb.mkPackage "component/tip" "component/tip@0.3.0" "components"
                  [EmptyString; Scenario.m2] None None false None "0.3.0" None false None true)
               Scenario.with_tip_dir eq_refl eq_refl eq_refl).
    reflexivity.
  - rewrite (proj2 no_usable_mirror_fails_without_request
               (Scenario.env_of (Scenario.always (Reply 400 Scenario.tip_manifest "")))
               (fun _ => out_of_fuel)
               (Gen.mkPackage "component/tip" "component/tip@0.3.0" "components"
                  [] None ∅ false "0.3.0" None [] None false)
               Scenario.with_tip_dir eq_refl eq_refl).
    reflexivity.
Defined.

(** ** Transport errors and file responses *)

(** X8. When the manifest request fails in transport, [getJSON] reports the
    client's error with its properties kept and its message rewritten: a
    failure of [getaddrinfo] reads [dns lookup failed] in both revisions; any
    other failure is passed on unchanged by the first revision and gets the
    URL appended to its message by the second. *)
Theorem getJSON_rewrites_transport_errors :
  (forall env (this : Cb.Package) w e,
      request env (cb_manifest_url this) (manifest_request this) = NetError e ->
      (syscall e = Some "getaddrinfo" ->
       fst (Cb.getJSON env this w)
       = Return (inl (mkError "dns lookup failed" (status e) (syscall e) (code e) (fatal e))))
      /\ (syscall e <> Some "getaddrinfo" ->
          fst (Cb.getJSON env this w) = Return (inl e)))
  /\ (forall env (this : Gen.Package) w e,
      request env (gen_own_manifest_url env this) (gen_own_manifest_request env this)
      = NetError e ->
      (syscall e = Some "getaddrinfo" ->
       fst (Gen.getJSON env this w)
       = Throw (mkError "dns lookup failed" (status e) (syscall e) (code e) (fatal e)))
      /\ (syscall e <> Some "getaddrinfo" ->
          fst (Gen.getJSON env this w)
          = Throw (mkError (message e +:+ " in " +:+ gen_own_manifest_url env this)
                           (status e) (syscall e) (code e) (fatal e)))).
Proof.
  split.
  - intros env this w e Hreq.
    assert (Hrun : fst (Cb.getJSON env this w)
                   = Return (inl (if bool_decide (syscall e = Some "getaddrinfo")
                                  then set_message "dns lookup failed" e else e))).
    { unfold Cb.getJSON, http_request, bind, emit_log. simpl.
      unfold cb_manifest_url, manifest_request in Hreq. by rewrite Hreq. }
    split; intros Hs; rewrite Hrun.
    + by rewrite bool_decide_eq_true_2.
    + by rewrite bool_decide_eq_false_2.
  - intros env this w e Hreq.
    assert (Hrun : fst (Gen.getJSON env this w)
                   = Throw (if bool_decide (syscall e = Some "getaddrinfo")
                            then set_message "dns lookup failed" e
                            else set_message
                                   (message e +:+ " in " +:+ Gen.url this "component.json") e)).
    { unfold Gen.getJSON, http_request, bind, emit_log. simpl.
      unfold gen_own_manifest_url, gen_own_manifest_request in Hreq. by rewrite Hreq. }
    split; intros Hs; rewrite Hrun.
    + by rewrite bool_decide_eq_true_2.
    + by rewrite bool_decide_eq_false_2.
Qed.

Lemma getJSON_rewrites_transport_errors_witness :
  fst (Cb.getJSON (Scenario.env_of (Scenario.always (NetError dns_failure)))
         Scenario.tip_cb Scenario.fresh)
  = Return (inl (mkError "dns lookup failed" None (Some "getaddrinfo")
                         (Some "ENOTFOUND") None))
  /\ fst (Gen.getJSON (Scenario.env_of (Scenario.always (NetError refused)))
            Scenario.tip_gen Scenario.fresh)
     = Throw (mkError
                "connect ECONNREFUSED in https://raw.github.com/component/tip/0.3.0/component.json"
                None (Some "connect") (Some "ECONNREFUSED") None).
Proof.
  split.
  - exact (proj1 (proj1 getJSON_rewrites_transport_errors
                    (Scenario.env_of (Scenario.always (NetError dns_failure)))
                    Scenario.tip_cb Scenario.fresh dns_failure eq_refl) eq_refl).
  - refine (proj2 (proj2 getJSON_rewrites_transport_errors
                     (Scenario.env_of (Scenario.always (NetError refused)))
                     Scenario.tip_gen Scenario.fresh refused eq_refl) _).
    discriminate.
Defined.



(** X10. In the second revision [getFile] announces the file, creates the
    directory of its destination, and throws the fetch error, carrying the
    status and the URL, for every status other than 200; nothing is written
    at the destination. *)
Theorem getFile_throws_on_status_other_than_200
    (env : Env) (this : Gen.Package) (file : string) (w : World)
    (f' : gmap string node) (sc : Z) (b : Manifest) (text : string) :
  let dst := Gen.join env this file in
  let opts := mkReq None None None false None (Some dst) in
  mkdirs (Path.ancestors (Path.dirname dst)) (fs w) = inr f' ->
  request env (Gen.url this file) opts = Reply sc b text ->
  sc <> 200 ->
  Gen.getFile env this file w
  = (Throw (mkError ("failed to fetch " +:+ Gen.url this file +:+ ", got " +:+ pretty sc
                     +:+ " " +:+ dquote +:+ status_text env sc +:+ dquote)
                    (Some sc) None None None),
     mkWorld (inFlight w) f'
       (log w ++ [EmitFile (Gen.slug this) file (Gen.url this file);
                  FsMkdirp (Path.dirname dst);
                  NetGet (Gen.url this file) opts])).
Proof.
  intros dst opts Hmk Hreq Hsc. subst dst opts.
  unfold Gen.getFile, Gen.mkdir. cbv zeta. rewrite lookup_empty.
  unfold Gen.yield_, mkdirp, http_request.
  unfold bind, emit_log, get_world, set_fs, ret. simpl.
  rewrite Hmk. simpl. rewrite Hreq. simpl.
  apply Z.eqb_neq in Hsc. rewrite Hsc. simpl. rewrite Hsc. simpl.
  unfold throw, error. simpl. by rewrite <- !app_assoc.
Qed.

Lemma getFile_throws_on_status_other_than_200_witness :
  fst (Gen.getFile (Scenario.env_of (Scenario.always (Reply 404 empty_manifest "Not Found")))
         Scenario.tip_gen "lib/index.js" Scenario.fresh)
  = Throw (mkError
             ("failed to fetch https://raw.github.com/component/tip/0.3.0/lib/index.js, got 404 "
              +:+ dquote +:+ "status" +:+ dquote)
             (Some 404) None None None).
Proof.
  rewrite (getFile_throws_on_status_other_than_200
             (Scenario.env_of (Scenario.always (Reply 404 empty_manifest "Not Found")))
             Scenario.tip_gen "lib/index.js" Scenario.fresh
             (<["/home/app/components/component-tip/lib" := Dir]>
                (<["/home/app/components/component-tip" := Dir]>
                   (<["/home/app/components" := Dir]>
                      (<["/home/app" := Dir]> (<["/home" := Dir]> ∅)))))
             404 empty_manifest "Not Found").
  - reflexivity.
  - vm_compute. reflexivity.
  - reflexivity.
  - discriminate.
Defined.

(** ** Dependencies already in flight *)

Lemma gen_getDependencies_in_flight (env : Env) (fuel : nat) (this : Gen.Package)
    (deps : list (string * string)) :
  forall (ch : Gen.Channel) (w : World),
    Forall (dep_in_flight w) deps ->
    Gen.getDependencies env (Gen.install env fuel) this deps ch w
    = (Return ch,
       mkWorld (inFlight w) (fs w)
         (log w ++ map (fun d => EmitDep (Gen.slug this) (slug_of (fst d) (snd d))) deps)).
Proof.
  induction deps as [| [n v] deps IH]; intros ch w Hall.
  - simpl. rewrite app_nil_r. by destruct w.
  - apply Forall_cons in Hall as [(Hn & Hv & Hfl) Hall]. simpl in Hn, Hv, Hfl.
    destruct n as [| c n]; [done |]. destruct v as [| c' v]; [done |].
    simpl Gen.getDependencies. unfold Gen.drain. unfold bind at 1, ret at 1.
    unfold bind at 1.
    destruct (gen_new_Package_returns env c n c' v
                (mkOptions (Some (Gen.dest this)) (Some (Gen.remotes this)) None None
                           (Gen.force this) None None) w) as (pkg & -> & Hslug).
    unfold bind at 1, emit_log at 1. unfold bind at 1, Gen.push at 1.
    unfold bind at 1, attempt at 1.
    rewrite gen_install_in_flight by (rewrite Hslug; exact Hfl).
    unfold ret at 1. rewrite Hslug.
    rewrite (IH ch (mkWorld (inFlight w) (fs w)
                      (log w ++ [EmitDep (Gen.slug this)
                                   (slug_of (String c n) (String c' v))])))
      by exact Hall.
    simpl. by rewrite <- app_assoc.
Qed.

Lemma cb_getDependencies_in_flight (env : Env) (fuel : nat) (this : Cb.Package)
    (deps : list (string * string)) :
  forall (w : World),
    Forall (dep_in_flight w) deps ->
    Cb.getDependencies env (Cb.install env fuel) this deps w
    = (Return (Done None),
       mkWorld (inFlight w) (fs w)
         (log w ++ flat_map (fun d => [EmitDep (Cb.slug this) (slug_of (fst d) (snd d));
                                       EmitEnd (slug_of (fst d) (snd d))]) deps)).
Proof.
  unfold Cb.getDependencies.
  induction deps as [| [n v] deps IH]; intros w Hall.
  - simpl. rewrite app_nil_r. by destruct w.
  - apply Forall_cons in Hall as [(Hn & Hv & Hfl) Hall]. simpl in Hn, Hv, Hfl.
    destruct n as [| c n]; [done |]. destruct v as [| c' v]; [done |].
    simpl map. simpl run_batch.
    unfold bind at 1, attempt at 1, Cb.getDependencies_task at 1. unfold bind at 1.
    simpl fst. simpl snd.
    destruct (cb_new_Package_returns env c n c' v
                (mkOptions (Some (Cb.dest this)) (Some (Cb.remotes this)) None None
                           (Cb.force this) (Cb.proxy this) None) w)
      as (pkg & -> & Hslug & Hthis).
    rewrite (mark_in_flight_again _ _ Hfl).
    unfold bind at 1, emit_log at 1. unfold bind at 1.
    rewrite cb_install_in_flight by (simpl; by rewrite Hthis).
    unfold ret at 1. simpl Cb.slug. rewrite Hslug. cbn [inFlight fs log].
    rewrite (IH (mkWorld (inFlight w) (fs w)
                   ((log w ++ [EmitDep (Cb.slug this) (slug_of (String c n) (String c' v))])
                    ++ [EmitEnd (slug_of (String c n) (String c' v))])))
      by exact Hall.
    simpl. by rewrite <- !app_assoc.
Qed.

(** X11. A dependency whose slug is already in flight is not installed
    again.  For a dependency map all of whose entries are in flight,
    [getDependencies] only announces each dependency (['dep'], and in the
    first revision the ['end'] of the child): no request is sent, the disk and
    the registry are unchanged, and no error is reported. *)
Theorem dependencies_in_flight_are_skipped :
  (forall env fuel (this : Cb.Package) deps w,
      Forall (dep_in_flight w) deps ->
      Cb.getDependencies env (Cb.install env fuel) this deps w
      = (Return (Done None),
         mkWorld (inFlight w) (fs w)
           (log w ++ flat_map (fun d => [EmitDep (Cb.slug this) (slug_of (fst d) (snd d));
                                         EmitEnd (slug_of (fst d) (snd d))]) deps)))
  /\ (forall env fuel (this : Gen.Package) deps ch w,
      Forall (dep_in_flight w) deps ->
      Gen.getDependencies env (Gen.install env fuel) this deps ch w
      = (Return ch,
         mkWorld (inFlight w) (fs w)
           (log w ++ map (fun d => EmitDep (Gen.slug this) (slug_of (fst d) (snd d))) deps))).
Proof.
  split; intros.
  - by apply cb_getDependencies_in_flight.
  - by apply gen_getDependencies_in_flight.
Qed.

Lemma two_deps_in_flight : Forall (dep_in_flight two_in_flight) two_deps.
Proof. repeat constructor; try done. Qed.

Lemma dependencies_in_flight_are_skipped_witness :
  Cb.getDependencies (Scenario.env_of (Scenario.always (NetError (new_Error "down"))))
    (Cb.install (Scenario.env_of (Scenario.always (NetError (new_Error "down")))) 0)
    Scenario.tip_cb two_deps two_in_flight
  = (Return (Done None),
     mkWorld (inFlight two_in_flight) ∅
       [EmitDep "component/tip@0.3.0" "component/emitter@1.0.0";
        EmitEnd "component/emitter@1.0.0";
        EmitDep "component/tip@0.3.0" "component/domify@master";
        EmitEnd "component/domify@master"])
  /\ Gen.getDependencies (Scenario.env_of (Scenario.always (NetError (new_Error "down"))))
       (Gen.install (Scenario.env_of (Scenario.always (NetError (new_Error "down")))) 0)
       Scenario.tip_gen two_deps [] two_in_flight
     = (Return [],
        mkWorld (inFlight two_in_flight) ∅
          [EmitDep "component/tip@0.3.0" "component/emitter@1.0.0";
           EmitDep "component/tip@0.3.0" "component/domify@master"]).
Proof.
  split.
  - exact (proj1 dependencies_in_flight_are_skipped
             (Scenario.env_of (Scenario.always (NetError (new_Error "down")))) 0%nat
             Scenario.tip_cb two_deps two_in_flight two_deps_in_flight).
  - exact (proj2 dependencies_in_flight_are_skipped
             (Scenario.env_of (Scenario.always (NetError (new_Error "down")))) 0%nat
             Scenario.tip_gen two_deps [] two_in_flight two_deps_in_flight).
Defined.

(** ** When no mirror serves the manifest *)

Lemma gen_getJSON_throws (env : Env) (this : Gen.Package) (r : string) (w : World) :
  gen_rejects env this r ->
  Gen.getJSON env (bind_mirror_gen env r this) w
  = (Throw (gen_thrown env this r),
     logged (NetGet (gen_manifest_url env this r) (gen_manifest_request env this r)) w).
Proof.
  unfold gen_rejects, gen_thrown, Gen.getJSON, http_request, bind, emit_log.
  change (Gen.url (bind_mirror_gen env r this) "component.json")
    with (gen_manifest_url env this r).
  change (mkReq None None None true
            (Gen.encodeAuth env (bind_mirror_gen env r this)
               (hostname env (gen_manifest_url env this r))) None)
    with (gen_manifest_request env this r).
  destruct (request env _ _) as [e | sc b text]; simpl; intros Hrej; [reflexivity |].
  destruct (Z.eqb_spec sc 400) as [-> | _]; [done | reflexivity].
Qed.

Lemma last_cons_default {A} (l : list A) (a d : A) :
  List.last (a :: l) d = List.last l a.
Proof.
  revert a d. induction l as [| b l IH]; intros a d; [reflexivity |].
  change (List.last (a :: b :: l) d) with (List.last (b :: l) d).
  rewrite IH. symmetry. apply IH.
Qed.

Lemma gen_loop_throws_last (env : Env) (install_dep : Gen.Package -> M Gen.Package)
    (rest : list string) :
  forall (r : string) (this : Gen.Package) (i : nat) (w : World),
    (i + List.length (r :: rest) = List.length (Gen.remotes this))%nat ->
    Forall (fun r => Js.falsy r = false /\ gen_rejects env this r) (r :: rest) ->
    Gen.reallyInstall_loop env install_dep this (r :: rest) i w
    = (Throw (gen_thrown env this (List.last rest r)),
       mkWorld (inFlight w) (fs w)
         (log w ++ map (fun r => NetGet (gen_manifest_url env this r)
                                        (gen_manifest_request env this r)) (r :: rest))).
Proof.
  induction rest as [| r' rest IH]; intros r this i w Hlen Hall;
    apply Forall_cons in Hall as [[Hr Hrej] Hall];
    rewrite (gen_loop_after_failed_fetch env install_dep this r _ i w _ _ Hr
               (gen_getJSON_throws env this r w Hrej)).
  - simpl in Hlen. replace (S i) with (List.length (Gen.remotes this)) by lia.
    by rewrite Nat.eqb_refl.
  - destruct (Nat.eqb_spec (S i) (List.length (Gen.remotes this))) as [Heq | _];
      [simpl in Hlen; lia |].
    rewrite (IH r' (bind_mirror_gen env r this) (S i)); [| simpl in *; lia | exact Hall].
    rewrite (last_cons_default rest r' r).
    unfold logged. simpl. by rewrite <- app_assoc.
Qed.

(** X12. When no mirror serves the manifest to the second revision (each
    request fails or is answered with a status other than the one [getJSON]
    accepts), [reallyInstall] asks every mirror once, in the order of the
    list, and throws the error of the last one; the disk and the registry are
    left as they were. *)
Theorem gen_mirrors_are_asked_once_in_order
    (env : Env) (install_dep : Gen.Package -> M Gen.Package) (this : Gen.Package)
    (w : World) (r : string) (rest : list string) :
  Gen.remotes this = r :: rest ->
  Forall (fun r => Js.falsy r = false /\ gen_rejects env this r) (r :: rest) ->
  Gen.reallyInstall env install_dep this w
  = (Throw (gen_thrown env this (List.last rest r)),
     mkWorld (inFlight w) (fs w)
       (log w ++ map (fun r => NetGet (gen_manifest_url env this r)
                                      (gen_manifest_request env this r)) (r :: rest))).
Proof.
  intros Hrem Hall. unfold Gen.reallyInstall. rewrite Hrem.
  apply gen_loop_throws_last; [by rewrite Hrem | exact Hall].
Qed.

Lemma gen_mirrors_are_asked_once_in_order_witness :
  Gen.reallyInstall (Scenario.env_of Scenario.m1_404_m2_200) (fun _ => out_of_fuel)
    three_mirrors_gen Scenario.with_tip_dir
  = (Throw (mkError
              ("failed to fetch https://m3.example.com/component/tip/0.3.0/component.json, got 200 "
               +:+ dquote +:+ "status" +:+ dquote)
              (Some 200) None None None),
     mkWorld ∅ (fs Scenario.with_tip_dir)
       [get_manifest Scenario.m1; get_manifest Scenario.m2;
        get_manifest "https://m3.example.com"]).
Proof.
  rewrite (gen_mirrors_are_asked_once_in_order (Scenario.env_of Scenario.m1_404_m2_200)
             (fun _ => out_of_fuel) three_mirrors_gen Scenario.with_tip_dir
             Scenario.m1 [Scenario.m2; "https://m3.example.com"] eq_refl).
  - reflexivity.
  - repeat constructor; vm_compute; done.
Defined.

Lemma cb_getJSON_received (env : Env) (this : Cb.Package) (r : string) (w : World) :
  Cb.getJSON env (bind_mirror_cb env r this) w
  = (Return (cb_received env this r),
     logged (NetGet (cb_mirror_url env this r) (manifest_request this)) w).
Proof.
  unfold cb_received, Cb.getJSON, http_request, bind, emit_log.
  change (Cb.url (bind_mirror_cb env r this) "component.json")
    with (cb_mirror_url env this r).
  change (mkReq (Cb.proxy (bind_mirror_cb env r this)) (Cb.netrc (bind_mirror_cb env r this))
            (Cb.auth (bind_mirror_cb env r this)) true None None)
    with (manifest_request this).
  destruct (request env _ _) as [e | sc b text]; simpl; [reflexivity |].
  destruct (negb (sc =? 200)); reflexivity.
Qed.

Lemma cb_failed_trace_bound (env : Env) (this : Cb.Package) (r : string)
    (rest : list string) :
  forall i, cb_failed_trace env (bind_mirror_cb env r this) rest i
            = cb_failed_trace env this rest i.
Proof.
  induction rest as [| r' rest IH]; intros i; [reflexivity |].
  simpl. rewrite IH. reflexivity.
Qed.

Lemma cb_next_all_failed (env : Env) (install_dep : Cb.Package -> M bool)
    (rest : list string) :
  forall (this : Cb.Package) (i : nat) (w : World),
    Cb.listens this = true ->
    rimraf_error env (Cb.dirname env this) = None ->
    Forall (fun r => Js.falsy r = false /\ exists e, cb_received env this r = inl e) rest ->
    Cb.next env install_dep this rest i w
    = (Return false,
       mkWorld (inFlight w) (remove_tree (Cb.dirname env this) (fs w))
         (log w ++ cb_failed_trace env this rest i
          ++ [FsRimraf (Cb.dirname env this);
              EmitError (Cb.slug this)
                (new_Error ("can't find remote for " +:+ dquote +:+ Cb.name this
                            +:+ dquote))])).
Proof.
  induction rest as [| r rest IH]; intros this i w Hl Hr Hall.
  - simpl. unfold Cb.no_remote, Cb.destroy, rimraf, Cb.emit_error.
    change (Cb.dirname env (Cb.set_remote None this)) with (Cb.dirname env this).
    change (Cb.listens (Cb.set_remote None this)) with (Cb.listens this).
    unfold bind, emit_log, get_world, set_fs, ret. simpl.
    rewrite Hr, Hl. simpl. by rewrite <- app_assoc.
  - apply Forall_cons in Hall as [[Hfr [e He]] Hall].
    pose proof (cb_getJSON_received env this r w) as Hjson. rewrite He in Hjson.
    rewrite (cb_next_after_failed_fetch env install_dep this r rest i w e _ Hfr Hjson).
    rewrite Hl.
    rewrite (IH (bind_mirror_cb env r this) (S i)) by assumption.
    rewrite cb_failed_trace_bound.
    simpl cb_failed_trace. rewrite He.
    unfold logged. simpl. f_equal. f_equal.
    rewrite <- !app_assoc. reflexivity.
Qed.

(** X13. When no mirror serves the manifest to the first revision and the
    creator listens for errors, [reallyInstall] asks every mirror once in
    order, emitting each failure (marked as the fatality rule says), then
    removes the package directory and only then emits the final error
    [can't find remote]; ['end'] is never emitted and the package directory
    is gone afterwards. *)
Theorem cb_all_mirrors_failing_cleans_up
    (env : Env) (install_dep : Cb.Package -> M bool) (this : Cb.Package) (w : World) :
  Cb.listens this = true ->
  rimraf_error env (Cb.dirname env this) = None ->
  Forall (fun r => Js.falsy r = false /\ exists e, cb_received env this r = inl e)
         (Cb.remotes this) ->
  Cb.reallyInstall env install_dep this w
  = (Return false,
     mkWorld (inFlight w) (remove_tree (Cb.dirname env this) (fs w))
       (log w ++ cb_failed_trace env this (Cb.remotes this) 0
        ++ [FsRimraf (Cb.dirname env this);
            EmitError (Cb.slug this)
              (new_Error ("can't find remote for " +:+ dquote +:+ Cb.name this +:+ dquote))]))
  /\ path_exists (remove_tree (Cb.dirname env this) (fs w)) (Cb.dirname env this) = false.
Proof.
  intros Hl Hr Hall. split.
  - unfold Cb.reallyInstall. by apply cb_next_all_failed.
  - apply remove_tree_removes, under_refl.
Qed.

Lemma cb_all_mirrors_failing_cleans_up_witness :
  let env := Scenario.env_of (Scenario.always (Reply 404 empty_manifest "Not Found")) in
  fst (Cb.reallyInstall env (fun _ => out_of_fuel) two_mirrors_cb Scenario.with_tip_dir)
  = Return false
  /\ log (snd (Cb.reallyInstall env (fun _ => out_of_fuel) two_mirrors_cb
                 Scenario.with_tip_dir))
     = [get_manifest Scenario.m1;
        EmitError "component/tip@0.3.0" error_404_m1;
        get_manifest Scenario.m2;
        EmitError "component/tip@0.3.0"
          (mkError
             ("failed to fetch https://m2.example.com/component/tip/0.3.0/component.json, got 404 "
              +:+ dquote +:+ "status" +:+ dquote)
             (Some 404) None None (Some true));
        FsRimraf tip_dir;
        EmitError "component/tip@0.3.0" cant_find_remote].
Proof.
  cbv zeta.
  rewrite (proj1 (cb_all_mirrors_failing_cleans_up
                    (Scenario.env_of (Scenario.always (Reply 404 empty_manifest "Not Found")))
                    (fun _ => out_of_fuel) two_mirrors_cb Scenario.with_tip_dir
                    eq_refl eq_refl
                    ltac:(repeat constructor; eexists; vm_compute; reflexivity))).
  split; reflexivity.
Defined.

(** ** The registry over a whole install *)

(** X14. Nothing ever clears an entry of the in-flight registry: a slug in
    flight before [install] is still in flight after it, in both revisions,
    however the install ends (with its dependencies, by an error, or by an
    uncaught exception).  A slug whose install failed can therefore not be
    installed again in the same process. *)
Theorem in_flight_registry_only_grows (s : string) (w : World) :
  in_flight w s = true ->
  (forall env fuel (this : Cb.Package),
      in_flight (snd (Cb.install env fuel this w)) s = true)
  /\ (forall env fuel (this : Gen.Package),
      in_flight (snd (Gen.install env fuel this w)) s = true).
Proof.
  intros Hs. split; intros env fuel this.
  - by apply (keeps_cb_install env fuel this w s).
  - by apply (keeps_gen_install env fuel this w s).
Qed.

Lemma in_flight_registry_only_grows_witness :
  in_flight tip_in_flight "component/tip@0.3.0" = true
  /\ in_flight
       (snd (Gen.install (Scenario.env_of (Scenario.always (NetError (new_Error "down"))))
               1 emitter_gen tip_in_flight))
       "component/tip@0.3.0" = true
  /\ in_flight
       (snd (Gen.install (Scenario.env_of (Scenario.always (NetError (new_Error "down"))))
               1 emitter_gen tip_in_flight))
       "component/emitter@1.0.0" = true.
Proof.
  split_and!.
  - reflexivity.
  - exact (proj2 (in_flight_registry_only_grows "component/tip@0.3.0" tip_in_flight eq_refl)
             (Scenario.env_of (Scenario.always (NetError (new_Error "down")))) 1%nat
             emitter_gen).
  - vm_compute. reflexivity.
Defined.

(** ** Installing the same dependencies again *)

Lemma gen_getDependencies_marks (env : Env) (fuel : nat) (this : Gen.Package)
    (deps : list (string * string)) :
  forall (ch : Gen.Channel) (w : World) (ch' : Gen.Channel) (w' : World),
    Forall dep_named deps ->
    Gen.getDependencies env (Gen.install env fuel) this deps ch w = (Return ch', w') ->
    Forall (dep_in_flight w') deps.
Proof.
  induction deps as [| [n v] deps IH]; intros ch w ch' w' Hall Hrun; [constructor |].
  apply Forall_cons in Hall as [[Hn Hv] Hall]. simpl in Hn, Hv.
  destruct n as [| c n]; [done |]. destruct v as [| c' v]; [done |].
  simpl Gen.getDependencies in Hrun. unfold Gen.drain in Hrun.
  unfold bind at 1, ret at 1 in Hrun. unfold bind at 1 in Hrun.
  destruct (gen_new_Package_returns env c n c' v
              (mkOptions (Some (Gen.dest this)) (Some (Gen.remotes this)) None None
                         (Gen.force this) None None) w) as (pkg & Hnew & Hslug).
  rewrite Hnew in Hrun.
  unfold bind at 1, emit_log at 1 in Hrun. unfold bind at 1, Gen.push at 1 in Hrun.
  unfold bind at 1, attempt at 1 in Hrun.
  match type of Hrun with
  | context [Gen.install env fuel pkg ?w1] =>
      pose proof (gen_install_marks env fuel pkg w1) as Hm;
      destruct (Gen.install env fuel pkg w1) as [[a | e | e |] w2]
  end; try discriminate; unfold ret at 1 in Hrun; simpl in Hm.
  all: constructor; [| exact (IH _ _ _ _ Hall Hrun)].
  all: split_and!; [done | done |]; simpl; rewrite <- Hslug.
  all: match type of Hrun with
       | Gen.getDependencies _ _ _ _ ?c ?w1 = _ =>
           pose proof (keeps_gen_getDependencies env (Gen.install env fuel)
                         (keeps_gen_install env fuel) this deps c w1) as Hk
       end; rewrite Hrun in Hk; by apply Hk.
Qed.

Lemma cb_task_marks (env : Env) (fuel : nat) (this : Cb.Package) (c : ascii) (n : string)
    (c' : ascii) (v : string) (w : World) :
  in_flight
    (snd (attempt (Cb.getDependencies_task env (Cb.install env fuel) this
                     (String c n, String c' v)) w))
    (slug_of (String c n) (String c' v)) = true.
Proof.
  unfold Cb.getDependencies_task. simpl fst. simpl snd.
  unfold attempt, bind at 1.
  destruct (cb_new_Package_returns env c n c' v
              (mkOptions (Some (Cb.dest this)) (Some (Cb.remotes this)) None None
                         (Cb.force this) (Cb.proxy this) None) w) as (pkg & -> & _ & _).
  match goal with
  | |- in_flight (snd (match ?k ?w1 with _ => _ end)) ?s = true =>
      assert (Hk : keeps k);
      [| assert (Hw : in_flight w1 s = true);
         [| specialize (Hk w1 s Hw); by destruct (k w1) as [[r | e | e |] w2]]]
  end.
  - apply keeps_bind; [apply keeps_emit_log |]. intros _.
    apply keeps_bind; [apply keeps_cb_install |]. intros ended. apply keeps_ret.
  - rewrite in_flight_mark. by rewrite bool_decide_eq_true_2.
Qed.

Lemma keeps_cb_tasks (env : Env) (fuel : nat) (this : Cb.Package)
    (deps : list (string * string)) :
  Forall keeps (map (Cb.getDependencies_task env (Cb.install env fuel) this) deps).
Proof.
  apply Forall_map, Forall_forall. intros dep _. unfold Cb.getDependencies_task.
  apply keeps_bind; [apply keeps_cb_new_Package |]. intros pkg.
  apply keeps_bind; [apply keeps_emit_log |]. intros _.
  apply keeps_bind; [apply keeps_cb_install |]. intros ended. apply keeps_ret.
Qed.

Lemma cb_run_after_error_marks (env : Env) (fuel : nat) (this : Cb.Package)
    (deps : list (string * string)) :
  forall (w w' : World) (r : unit),
    Forall dep_named deps ->
    run_after_error None (map (Cb.getDependencies_task env (Cb.install env fuel) this) deps) w
    = (Return r, w') ->
    Forall (dep_in_flight w') deps.
Proof.
  induction deps as [| [n v] deps IH]; intros w w' r Hall Hrun; [constructor |].
  apply Forall_cons in Hall as [[Hn Hv] Hall]. simpl in Hn, Hv.
  destruct n as [| c n]; [done |]. destruct v as [| c' v]; [done |].
  simpl map in Hrun. simpl run_after_error in Hrun. unfold bind at 1 in Hrun.
  pose proof (cb_task_marks env fuel this c n c' v w) as Hm.
  destruct (attempt _ w) as [[a | e | e |] w1]; try discriminate. simpl in Hm.
  constructor; [| exact (IH _ _ _ Hall Hrun)].
  split_and!; [done | done |]. simpl.
  pose proof (keeps_run_after_error None _ (keeps_cb_tasks env fuel this deps) w1) as Hk.
  rewrite Hrun in Hk. by apply Hk.
Qed.

Lemma cb_getDependencies_marks (env : Env) (fuel : nat) (this : Cb.Package)
    (deps : list (string * string)) :
  forall (w w' : World) (r : settle),
    Forall dep_named deps ->
    Cb.getDependencies env (Cb.install env fuel) this deps w = (Return r, w') ->
    Forall (dep_in_flight w') deps.
Proof.
  unfold Cb.getDependencies.
  induction deps as [| [n v] deps IH]; intros w w' r Hall Hrun; [constructor |].
  pose proof Hall as Hall0.
  apply Forall_cons in Hall as [[Hn Hv] Hall]. simpl in Hn, Hv.
  destruct n as [| c n]; [done |]. destruct v as [| c' v]; [done |].
  simpl map in Hrun. simpl run_batch in Hrun. unfold bind at 1 in Hrun.
  pose proof (cb_task_marks env fuel this c n c' v w) as Hm.
  destruct (attempt _ w) as [[a | e | e |] w1]; try discriminate. simpl in Hm.
  assert (Hrest : exists r', (run_batch None
                    (map (Cb.getDependencies_task env (Cb.install env fuel) this) deps) w1
                  = (Return r', w')
                  \/ run_after_error None
                    (map (Cb.getDependencies_task env (Cb.install env fuel) this) deps) w1
                  = (Return tt, w'))).
  { destruct a as [e | [| [e |]]].
    - unfold bind at 1 in Hrun. simpl fmap in Hrun.
      destruct (run_after_error None _ w1) as [[[] | e' | e' |] w2] eqn:Hafter;
        try discriminate.
      unfold ret in Hrun. inversion Hrun; subst. exists (Done None). by right.
    - unfold bind at 1 in Hrun.
      destruct (run_batch None _ w1) as [[r' | e' | e' |] w2] eqn:Hb; try discriminate.
      unfold ret in Hrun. inversion Hrun; subst. exists r'. by left.
    - unfold bind at 1 in Hrun. simpl fmap in Hrun.
      destruct (run_after_error None _ w1) as [[[] | e' | e' |] w2] eqn:Hafter;
        try discriminate.
      unfold ret in Hrun. inversion Hrun; subst. exists (Done None). by right.
    - exists r. by left. }
  destruct Hrest as [r' [Hrest | Hrest]].
  - constructor; [| exact (IH _ _ _ Hall Hrest)].
    split_and!; [done | done |]. simpl.
    pose proof (keeps_run_batch None _ (keeps_cb_tasks env fuel this deps) w1) as Hk.
    rewrite Hrest in Hk. by apply Hk.
  - constructor; [| exact (cb_run_after_error_marks env fuel this deps _ _ _ Hall Hrest)].
    split_and!; [done | done |]. simpl.
    pose proof (keeps_run_after_error None _ (keeps_cb_tasks env fuel this deps) w1) as Hk.
    rewrite Hrest in Hk. by apply Hk.
Qed.

(** X15. Dependencies are installed once per process.  After a pass of
    [getDependencies] that came back (whether the dependencies were
    installed or failed), a second pass over the same map sends no request
    and does not touch the disk or the registry: it only announces each
    dependency again (['dep'], and in the first revision the ['end'] of the
    child), and reports no error. *)
Theorem dependencies_are_installed_once :
  (forall env fuel fuel' (this : Cb.Package) deps w w' r,
      Forall dep_named deps ->
      Cb.getDependencies env (Cb.install env fuel) this deps w = (Return r, w') ->
      Cb.getDependencies env (Cb.install env fuel') this deps w'
      = (Return (Done None),
         mkWorld (inFlight w') (fs w')
           (log w' ++ flat_map (fun d => [EmitDep (Cb.slug this) (slug_of (fst d) (snd d));
                                          EmitEnd (slug_of (fst d) (snd d))]) deps)))
  /\ (forall env fuel fuel' (this : Gen.Package) deps ch ch' ch2 w w',
      Forall dep_named deps ->
      Gen.getDependencies env (Gen.install env fuel) this deps ch w = (Return ch', w') ->
      Gen.getDependencies env (Gen.install env fuel') this deps ch2 w'
      = (Return ch2,
         mkWorld (inFlight w') (fs w')
           (log w' ++ map (fun d => EmitDep (Gen.slug this) (slug_of (fst d) (snd d))) deps))).
Proof.
  split.
  - intros env fuel fuel' this deps w w' r Hall Hrun.
    apply cb_getDependencies_in_flight.
    exact (cb_getDependencies_marks env fuel this deps w w' r Hall Hrun).
  - intros env fuel fuel' this deps ch ch' ch2 w w' Hall Hrun.
    apply gen_getDependencies_in_flight.
    exact (gen_getDependencies_marks env fuel this deps ch w ch' w' Hall Hrun).
Qed.

Lemma two_deps_named : Forall dep_named two_deps.
Proof. repeat constructor; done. Qed.

Lemma dependencies_are_installed_once_witness :
  (exists ch', fst first_pass = Return ch' /\ List.length ch' = 2%nat)
  /\ Gen.getDependencies unreachable (Gen.install unreachable 1) Scenario.tip_gen two_deps []
       (snd first_pass)
     = (Return [],
        mkWorld (inFlight (snd first_pass)) (fs (snd first_pass))
          (log (snd first_pass)
           ++ [EmitDep "component/tip@0.3.0" "component/emitter@1.0.0";
               EmitDep "component/tip@0.3.0" "component/domify@master"])).
Proof.
  split.
  - eexists. split; [vm_compute; reflexivity | reflexivity].
  - refine (proj2 dependencies_are_installed_once unreachable 1%nat 1%nat Scenario.tip_gen
              two_deps [] _ [] Scenario.fresh (snd first_pass) two_deps_named _).
    vm_compute. reflexivity.
Defined.

(** ** A mirror that serves everything *)




